(** * Email parser function app: a shallow embedding of [function_app.py]

    The development follows [azure-functions/email-parser-ai/function_app.py]:
    the pydantic model [ReservationResponse], the HTTP handler [parse_email]
    and the handler [health].

    Conventions of the embedding.
    - A Python value that travels through the handlers (a decoded JSON
      document) is a [value]; a [dict] is an association list in insertion
      order, looked up by key.
    - A [str] is kept as the bytes of its UTF-8 encoding. A [str] may hold a
      surrogate code point (U+D800 to U+DFFF), which [json.loads] produces
      from a lone escape and which UTF-8 does not encode; it is kept as the
      three bytes ED, A0..BF, 80..BF that its code point would take.
    - A call that may raise returns [exn + A]; [inl e] is the raised exception.
    - The process environment, the hosted model and the library functions whose
      text is not part of the repository ([json.loads], [str] of a pydantic
      error, [format]) are the fields of a [World]; every theorem holds for
      every world.
    - An HTTP body is kept as the JSON document that [json.dumps] or
      [model_dump_json] writes out, not as its text; [model_dump_json] raises
      when the text cannot be written.
    - The calls made to the hosted model are recorded in a trace of [event]s.
      Calls to [logging] are not recorded. *)

From Stdlib Require Import ZArith List String Ascii Bool Lia.
From Stdlib Require Import Floats.SpecFloat.
Import ListNotations.
Open Scope string_scope.
Open Scope Z_scope.

#[local] Set Warnings "-register-all".

(** ** Python values *)

Inductive value : Type :=
| PyNone : value
| PyBool (b : bool)
| PyInt (n : Z)
| PyFloat (f : spec_float)
| PyStr (s : string)
| PyList (items : list value)
| PyDict (entries : list (string * value)).

Definition dict : Type := list (string * value).

(** [d.get(key)] on the entries of a dict. *)
Fixpoint dict_get (key : string) (d : dict) : option value :=
  match d with
  | [] => None
  | (k, v) :: rest => if String.eqb k key then Some v else dict_get key rest
  end.

(** Truth value testing, as [bool(v)] and [not v] use it. *)
Definition truthy (v : value) : bool :=
  match v with
  | PyNone => false
  | PyBool b => b
  | PyInt n => negb (n =? 0)
  | PyFloat (S754_zero _) => false
  | PyFloat _ => true
  | PyStr s => negb (String.eqb s "")
  | PyList items => match items with [] => false | _ :: _ => true end
  | PyDict entries => match entries with [] => false | _ :: _ => true end
  end.

(** ** Exceptions *)

(** One entry of a pydantic [ValidationError]: where, and whether the field
    was absent or its value was not acceptable. The entry of pydantic also
    carries the rejected input and a message; they are not kept here, so two
    errors that are equal here may differ in the input they quote. What
    [str(e)] shows of them belongs to [str_exn]. *)
Inductive loc_item : Type :=
| LocField (name : string)
| LocIndex (i : nat).

Inductive error_kind : Type :=
| missing
| invalid.

Record line_error : Type := LineError {
  loc : list loc_item;
  kind : error_kind
}.

(** Why the interpreter raises a [TypeError] in the handler. *)
Inductive type_fault : Type :=
| not_iterable (operand : value)    (* right operand of [in] *)
| not_a_mapping (operand : value)   (* operand unpacked into keyword arguments *)
| not_text.                         (* [json.loads(None)] *)

(** The exceptions the handler meets. [Exception] stands for every other
    subclass of [Exception], such as the errors of the model client. The
    wording of [str(e)] belongs to the [World] below. *)
Inductive exn : Type :=
| JSONDecodeError (msg : string)
| ValidationError (errors : list line_error)
| TypeError (why : type_fault)
| AttributeError (obj : value) (attr : string)
| IndexError
| PydanticSerializationError
| Exception (msg : string).

(** ** Strings: the [in] operator *)

(** [needle in hay] for two [str]: [needle] occurs as a contiguous run. *)
Fixpoint str_contains (needle hay : string) : bool :=
  String.prefix needle hay
  || match hay with
     | EmptyString => false
     | String _ rest => str_contains needle rest
     end.

(** [x == s] where [s] is a [str]: only an equal [str] compares equal. *)
Definition eq_str (s : string) (x : value) : bool :=
  match x with
  | PyStr t => String.eqb t s
  | _ => false
  end.

(** [needle in container], with the [TypeError] of a container-less operand. *)
Definition py_in (needle : string) (container : value) : exn + bool :=
  match container with
  | PyStr hay => inr (str_contains needle hay)
  | PyList items => inr (existsb (eq_str needle) items)
  | PyDict entries => inr (existsb (fun kv => String.eqb (fst kv) needle) entries)
  | v => inl (TypeError (not_iterable v))
  end.

(** [obj.get(key, default)]: defined on a dict, [AttributeError] elsewhere. *)
Definition py_get (obj : value) (key : string) (default : value) : exn + value :=
  match obj with
  | PyDict entries =>
      inr (match dict_get key entries with Some v => v | None => default end)
  | v => inl (AttributeError v "get")
  end.

(** ** The pydantic model [ReservationResponse]

    The class declares eight fields and no configuration. The handler calls
    [model_dump_json], which is the interface of pydantic 2; with no
    configuration pydantic validates in its default (lax) mode, ignores keys
    it does not know, and collects the errors of all fields before it
    raises. The text of pydantic is not part of the repository: the
    functions below follow its conversion rules for the declared types
    [bool], [Optional[str]] and [Optional[list[str]]] on the values that
    [json.loads] can produce. *)

Record ReservationResponse : Type := {
  is_reservation : bool;
  date : option string;
  start_time : option string;
  end_time : option string;
  court : option string;
  organizer : option string;
  players : option (list string);
  error : option string
}.

Definition ascii_lower (c : ascii) : ascii :=
  let n := nat_of_ascii c in
  if ((65 <=? n) && (n <=? 90))%nat then ascii_of_nat (n + 32) else c.

Fixpoint str_lower (s : string) : string :=
  match s with
  | EmptyString => EmptyString
  | String c rest => String (ascii_lower c) (str_lower rest)
  end.

Definition str_in (s : string) (l : list string) : bool :=
  existsb (String.eqb s) l.

(** Lax conversion of a [str] to [bool]: the words are matched without
    regard to ASCII case. *)
Definition str_as_bool (s : string) : option bool :=
  if String.eqb s "0" || str_in (str_lower s) ["f"; "n"; "no"; "off"; "false"]
  then Some false
  else if String.eqb s "1" || str_in (str_lower s) ["t"; "y"; "on"; "yes"; "true"]
  then Some true
  else None.

Definition int_as_bool (n : Z) : option bool :=
  if n =? 0 then Some false else if n =? 1 then Some true else None.

(** The float denotes the number one. *)
Definition float_is_one (f : spec_float) : bool :=
  match f with
  | S754_finite false m e =>
      if 0 <=? e then Z.pos m * 2 ^ e =? 1 else Z.pos m =? 2 ^ (- e)
  | _ => false
  end.

Definition float_as_bool (f : spec_float) : option bool :=
  match f with
  | S754_zero _ => Some false
  | _ => if float_is_one f then Some true else None
  end.

(** A [bool] field in lax mode: a [bool] is taken as it is; [str], [int] and
    [float] are converted when they spell a truth value. *)
Definition lax_bool (v : value) : option bool :=
  match v with
  | PyBool b => Some b
  | PyStr s => str_as_bool s
  | PyInt n => int_as_bool n
  | PyFloat f => float_as_bool f
  | PyNone | PyList _ | PyDict _ => None
  end.

(** The outcome of validating one field: its line errors, or its value. *)
Definition field_result (A : Type) : Type := (list line_error + A)%type.

Definition validate_bool (v : value) : field_result bool :=
  match lax_bool v with
  | Some b => inr b
  | None => inl [LineError [] invalid]
  end.

(** A [str] field: numbers are not turned into text. *)
Definition validate_str (v : value) : field_result string :=
  match v with
  | PyStr s => inr s
  | _ => inl [LineError [] invalid]
  end.

(** The items of a [list[str]], from index [i] on: every bad item is
    reported under its index. *)
Fixpoint validate_str_items (i : nat) (items : list value)
  : list line_error * list string :=
  match items with
  | [] => ([], [])
  | x :: rest =>
      let (errs, strs) := validate_str_items (S i) rest in
      match x with
      | PyStr s => (errs, s :: strs)
      | _ => (LineError [LocIndex i] invalid :: errs, strs)
      end
  end.

Definition validate_list_str (v : value) : field_result (list string) :=
  match v with
  | PyList items =>
      match validate_str_items 0 items with
      | ([], strs) => inr strs
      | (errs, _) => inl errs
      end
  | _ => inl [LineError [] invalid]
  end.

(** [Optional[T]]: [None] is accepted as it is. *)
Definition nullable {A : Type} (validate : value -> field_result A) (v : value)
  : field_result (option A) :=
  match v with
  | PyNone => inr None
  | _ => match validate v with
         | inl errs => inl errs
         | inr a => inr (Some a)
         end
  end.

Definition under (name : string) (e : line_error) : line_error :=
  LineError (LocField name :: loc e) (kind e).

(** A field without a default. *)
Definition required {A : Type} (name : string)
  (validate : value -> field_result A) (kwargs : dict) : field_result A :=
  match dict_get name kwargs with
  | None => inl [LineError [LocField name] missing]
  | Some v => match validate v with
              | inl errs => inl (map (under name) errs)
              | inr a => inr a
              end
  end.

(** A field declared [Optional[T] = None]. *)
Definition optional {A : Type} (name : string)
  (validate : value -> field_result A) (kwargs : dict)
  : field_result (option A) :=
  match dict_get name kwargs with
  | None => inr None
  | Some v => match nullable validate v with
              | inl errs => inl (map (under name) errs)
              | inr a => inr a
              end
  end.

Definition errors_of {A : Type} (r : field_result A) : list line_error :=
  match r with
  | inl errs => errs
  | inr _ => []
  end.

(** The constructor of the model on its keyword arguments: every field is
    validated, and all line errors are raised together. *)
Definition ReservationResponse_init (kwargs : dict) : exn + ReservationResponse :=
  let f_is_reservation := required "is_reservation" validate_bool kwargs in
  let f_date := optional "date" validate_str kwargs in
  let f_start_time := optional "start_time" validate_str kwargs in
  let f_end_time := optional "end_time" validate_str kwargs in
  let f_court := optional "court" validate_str kwargs in
  let f_organizer := optional "organizer" validate_str kwargs in
  let f_players := optional "players" validate_list_str kwargs in
  let f_error := optional "error" validate_str kwargs in
  match f_is_reservation, f_date, f_start_time, f_end_time,
        f_court, f_organizer, f_players, f_error with
  | inr a, inr b, inr c, inr d, inr e, inr f, inr g, inr h =>
      inr {| is_reservation := a; date := b; start_time := c; end_time := d;
             court := e; organizer := f; players := g; error := h |}
  | _, _, _, _, _, _, _, _ =>
      inl (ValidationError
             (errors_of f_is_reservation ++ errors_of f_date
              ++ errors_of f_start_time ++ errors_of f_end_time
              ++ errors_of f_court ++ errors_of f_organizer
              ++ errors_of f_players ++ errors_of f_error))
  end.

(** The constructor applied to an unpacked [result_dict]: unpacking into
    keyword arguments needs a mapping and raises [TypeError] on anything
    else. *)
Definition ReservationResponse_unpack (result_dict : value)
  : exn + ReservationResponse :=
  match result_dict with
  | PyDict kwargs => ReservationResponse_init kwargs
  | v => inl (TypeError (not_a_mapping v))
  end.

Definition dump_opt_str (o : option string) : value :=
  match o with
  | Some s => PyStr s
  | None => PyNone
  end.

Definition dump_opt_list_str (o : option (list string)) : value :=
  match o with
  | Some l => PyList (map PyStr l)
  | None => PyNone
  end.

(** The document of a model: every declared field in declaration order, an
    unset one as [null]. *)
Definition model_dump (r : ReservationResponse) : value :=
  PyDict [ ("is_reservation", PyBool (is_reservation r));
           ("date", dump_opt_str (date r));
           ("start_time", dump_opt_str (start_time r));
           ("end_time", dump_opt_str (end_time r));
           ("court", dump_opt_str (court r));
           ("organizer", dump_opt_str (organizer r));
           ("players", dump_opt_list_str (players r));
           ("error", dump_opt_str (error r)) ].

(** The [str] holds a surrogate code point: a byte ED followed by a byte
    from A0 to BF. *)
Fixpoint has_surrogate (s : string) : bool :=
  match s with
  | String c (String d _ as rest) =>
      (Ascii.eqb c "237"%char
       && (160 <=? nat_of_ascii d)%nat && (nat_of_ascii d <=? 191)%nat)
      || has_surrogate rest
  | _ => false
  end.

(** The [str] can be written as UTF-8. *)
Definition encodable (s : string) : bool := negb (has_surrogate s).

Definition opt_encodable (o : option string) : bool :=
  match o with
  | Some s => encodable s
  | None => true
  end.

(** Every [str] the model holds can be written as UTF-8. *)
Definition serializable (r : ReservationResponse) : bool :=
  opt_encodable (date r) && opt_encodable (start_time r)
  && opt_encodable (end_time r) && opt_encodable (court r)
  && opt_encodable (organizer r)
  && match players r with
     | Some l => forallb encodable l
     | None => true
     end
  && opt_encodable (error r).

(** [model_dump_json()]: the document of the model, written as UTF-8 text;
    it raises [PydanticSerializationError] when a [str] of the model holds a
    surrogate. *)
Definition model_dump_json (r : ReservationResponse) : exn + value :=
  if serializable r then inr (model_dump r)
  else inl PydanticSerializationError.

(** ** The outside world *)

Record ChatMessage : Type := {
  role : string;
  content : string
}.

(** The keyword arguments of [client.chat.completions.create]. *)
Record ChatRequest : Type := {
  model : string;
  messages : list ChatMessage;
  temperature : Z;
  max_tokens : Z;
  response_format : string
}.

(** The part of a completion the handler reads:
    [response.choices[i].message.content]. *)
Record Choice : Type := {
  message_content : option string
}.

Record ChatCompletion : Type := {
  choices : list Choice
}.

(** The keyword arguments of the [AzureOpenAI] constructor. *)
Record ClientConfig : Type := {
  azure_endpoint : option string;
  api_key : option string;
  api_version : string
}.

Record World : Type := {
  (** [os.environ.get(name)] *)
  environ_get : string -> option string;
  (** [AzureOpenAI(...)]: the exception it raises, if any *)
  AzureOpenAI : ClientConfig -> option exn;
  (** [client.chat.completions.create(...)] *)
  chat_completions_create : ClientConfig -> ChatRequest -> exn + ChatCompletion;
  (** [json.loads(text)] *)
  json_loads : string -> exn + value;
  (** [str(e)] of an exception *)
  str_exn : exn -> string;
  (** [format(v, '')] of a value that is not a [str] *)
  format_value : value -> string
}.

(** A request as the handlers use it: [req.get_json()] raises [ValueError]
    or returns the decoded body. *)
Record HttpRequest : Type := {
  get_json : string + value
}.

Record HttpResponse : Type := {
  body : value;
  status_code : Z;
  mimetype : string
}.

(** What a handler does: it returns a response or an exception leaves it. *)
Inductive outcome : Type :=
| Return (response : HttpResponse)
| Raise (e : exn).

(** The calls made to the hosted model. *)
Inductive event : Type :=
| NewClient (cfg : ClientConfig)
| Create (cfg : ClientConfig) (request : ChatRequest).

Definition nl : string := String "010"%char EmptyString.
Definition dq : string := String "034"%char EmptyString.
Definition q (s : string) : string := dq ++ s ++ dq.

Definition SYSTEM_PROMPT : string :=
  String.concat nl
    [ "You are a specialized email parser for pickleball court reservations from Pickle Planner / Rally Club.";
      "";
      "Your task is to extract reservation details from email text. The emails may be:";
      "- Direct reservation confirmations";
      "- Forwarded emails (with headers like " ++ q "Begin forwarded message:" ++ ")";
      "- Various formats with or without proper line breaks";
      "";
      "Extract the following information:";
      "1. **date**: The reservation date (not the email sent date if forwarded). Format as YYYY-MM-DD.";
      "2. **start_time**: Start time (e.g., " ++ q "5:30pm" ++ ", " ++ q "8:00am" ++ ")";
      "3. **end_time**: End time (e.g., " ++ q "7:00pm" ++ ", " ++ q "9:30am" ++ ")";
      "4. **court**: Court location (e.g., " ++ q "North" ++ ", " ++ q "South"
        ++ ", " ++ q "North, South" ++ ", " ++ q "East" ++ ", " ++ q "West"
        ++ ", " ++ q "Center" ++ ")";
      "5. **organizer**: The person whose reservation it is (from "
        ++ q "Name's Reservation" ++ ")";
      "6. **players**: List of all player names";
      "";
      "Important parsing rules:";
      "- For forwarded emails, look for the ACTUAL reservation date (often followed by a day like "
        ++ q "TUESDAY" ++ ") not the forwarding date";
      "- Look for " ++ q "following event:" ++ " as a marker for the actual reservation content";
      "- Player names appear after " ++ q "Players" ++ " and before "
        ++ q "Reservation Fee" ++ ", " ++ q "Fee Breakdown" ++ ", " ++ q "Total:"
        ++ ", " ++ q "Status:" ++ ", or " ++ q "The door code";
      "- Courts are typically: North, South, East, West, Center (or combinations like "
        ++ q "North, South" ++ ")";
      "- If it's not a Rally Club / Pickle Planner reservation email, set is_reservation to false";
      "";
      "Respond with valid JSON only, no markdown formatting." ].

(** The literal the pre-filter looks for. *)
Definition MARKER : string := "Rally Club".

(** [func.HttpResponse(json.dumps(doc), status_code=..., mimetype=...)] *)
Definition json_response (doc : dict) (status : Z) : HttpResponse :=
  {| body := PyDict doc; status_code := status; mimetype := "application/json" |}.

(** [bool(s)] of the result of [os.environ.get]: set and not empty. *)
Definition configured (o : option string) : bool :=
  match o with
  | Some s => negb (String.eqb s "")
  | None => false
  end.

(** The condition of the quick check,
    [MARKER not in email_text and MARKER not in email_subject]: the right
    operand is evaluated only when the left one is true. *)
Definition quick_check (email_text email_subject : value) : exn + bool :=
  match py_in MARKER email_text with
  | inl e => inl e
  | inr true => inr false
  | inr false =>
      match py_in MARKER email_subject with
      | inl e => inl e
      | inr b => inr (negb b)
      end
  end.

(** The keyword arguments the handler gives to the [AzureOpenAI] constructor. *)
Definition client_config (endpoint key : option string) : ClientConfig :=
  {| azure_endpoint := endpoint; api_key := key; api_version := "2024-02-01" |}.

Section Handlers.

Variable w : World.

(** A replacement field of an f-string. *)
Definition fmt (v : value) : string :=
  match v with
  | PyStr s => s
  | _ => format_value w v
  end.

Definition user_message (email_text email_subject : value) : string :=
  "Parse this reservation email:" ++ nl ++ nl
  ++ "Subject: " ++ fmt email_subject ++ nl ++ nl
  ++ "Body:" ++ nl
  ++ fmt email_text ++ nl ++ nl
  ++ "Extract the reservation details and respond with JSON.".

Definition chat_request (deployment : string) (email_text email_subject : value)
  : ChatRequest :=
  {| model := deployment;
     messages := [ {| role := "system"; content := SYSTEM_PROMPT |};
                   {| role := "user";
                      content := user_message email_text email_subject |} ];
     temperature := 0;
     max_tokens := 500;
     response_format := "json_object" |}.

(** [json.loads(result_text)]; a [None] content is not text. *)
Definition loads_content (result_text : option string) : exn + value :=
  match result_text with
  | Some text => json_loads w text
  | None => inl (TypeError not_text)
  end.

(** The body of the inner [try]: decode, then validate. *)
Definition parse_and_validate (result_text : option string)
  : exn + ReservationResponse :=
  match loads_content result_text with
  | inl e => inl e
  | inr result_dict => ReservationResponse_unpack result_dict
  end.

(** The handler of the outer [except Exception]. *)
Definition ai_failed (e : exn) : outcome :=
  Return (json_response
            [("error", PyStr ("AI processing failed: " ++ str_exn w e))] 500).

(** The handler of the inner
    [except (json.JSONDecodeError, ValidationError)]. *)
Definition parse_failed (e : exn) : outcome :=
  Return (json_response
            [("is_reservation", PyBool false);
             ("error", PyStr ("Failed to parse AI response: " ++ str_exn w e))]
            200).

(** The whole body of the inner [try]: decode, validate, serialize, and
    build the response. *)
Definition inner_try (result_text : option string) : exn + HttpResponse :=
  match parse_and_validate result_text with
  | inl e => inl e
  | inr reservation =>
      match model_dump_json reservation with
      | inl e => inl e
      | inr doc => inr {| body := doc;
                          status_code := 200;
                          mimetype := "application/json" |}
      end
  end.

(** The inner [try] with its [except] clause; an exception of another
    class goes on to the outer handler. *)
Definition validate_response (result_text : option string) : outcome :=
  match inner_try result_text with
  | inr response => Return response
  | inl (JSONDecodeError msg) => parse_failed (JSONDecodeError msg)
  | inl (ValidationError errors) => parse_failed (ValidationError errors)
  | inl e => ai_failed e
  end.

(** The outer [try]: build the client, call the model, read the first
    choice, validate. *)
Definition call_openai (endpoint key : option string) (deployment : string)
  (email_text email_subject : value) : outcome * list event :=
  let cfg := client_config endpoint key in
  match AzureOpenAI w cfg with
  | Some e => (ai_failed e, [NewClient cfg])
  | None =>
      let request := chat_request deployment email_text email_subject in
      let trace := [NewClient cfg; Create cfg request] in
      match chat_completions_create w cfg request with
      | inl e => (ai_failed e, trace)
      | inr response =>
          match choices response with
          | [] => (ai_failed IndexError, trace)
          | choice :: _ => (validate_response (message_content choice), trace)
          end
      end
  end.

(** [os.environ.get("AZURE_OPENAI_DEPLOYMENT_NAME", "gpt-4o-mini")] *)
Definition deployment_name : string :=
  match environ_get w "AZURE_OPENAI_DEPLOYMENT_NAME" with
  | Some name => name
  | None => "gpt-4o-mini"
  end.

Definition parse_email (req : HttpRequest) : outcome * list event :=
  let endpoint := environ_get w "AZURE_OPENAI_ENDPOINT" in
  let api_key := environ_get w "AZURE_OPENAI_API_KEY" in
  let deployment := deployment_name in
  if negb (configured endpoint) || negb (configured api_key)
  then (Return (json_response
                  [("error", PyStr "Azure OpenAI not configured")] 500), [])
  else
    match get_json req with
    | inl _ =>
        (Return (json_response
                   [("error", PyStr "Invalid JSON in request body")] 400), [])
    | inr req_body =>
        match py_get req_body "email_text" (PyStr "") with
        | inl e => (Raise e, [])
        | inr email_text =>
            match py_get req_body "email_subject" (PyStr "") with
            | inl e => (Raise e, [])
            | inr email_subject =>
                if negb (truthy email_text)
                then (Return (json_response
                                [("error", PyStr "email_text is required")]
                                400), [])
                else
                  match quick_check email_text email_subject with
                  | inl e => (Raise e, [])
                  | inr true =>
                      (Return (json_response
                                 [("is_reservation", PyBool false)] 200), [])
                  | inr false =>
                      call_openai endpoint api_key deployment
                                  email_text email_subject
                  end
            end
        end
    end.

Definition health (req : HttpRequest) : outcome :=
  let endpoint := environ_get w "AZURE_OPENAI_ENDPOINT" in
  let api_key := environ_get w "AZURE_OPENAI_API_KEY" in
  Return (json_response
            [("status", PyStr "ok");
             ("openai_configured",
              PyBool (if configured endpoint then configured api_key else false))]
            200).

End Handlers.

(** ** Statements about the handlers: vocabulary *)

(** [needle] occurs in [hay] as an exact, case-sensitive substring. *)
Definition substring_of (needle hay : string) : Prop :=
  exists before after, hay = before ++ needle ++ after.

(** Both required configuration values are set and not empty. *)
Definition config_present (w : World) : Prop :=
  configured (environ_get w "AZURE_OPENAI_ENDPOINT") = true
  /\ configured (environ_get w "AZURE_OPENAI_API_KEY") = true.

(** The request body is a JSON object whose [email_text] and
    [email_subject] read as the given values ([email_subject] being the empty
    string when the key is absent). *)
Definition request_fields (req : HttpRequest) (email_text email_subject : value)
  : Prop :=
  exists entries,
    get_json req = inr (PyDict entries)
    /\ py_get (PyDict entries) "email_text" (PyStr "") = inr email_text
    /\ py_get (PyDict entries) "email_subject" (PyStr "") = inr email_subject.

(** The operands of [in] that have no membership test. *)
Definition scalar (v : value) : Prop :=
  v = PyNone \/ (exists b, v = PyBool b) \/ (exists n, v = PyInt n)
  \/ (exists f, v = PyFloat f).

(** The handler gets as far as the model, and the model's first choice
    carries [result_text]. *)
Definition model_replies (w : World) (req : HttpRequest)
  (result_text : option string) : Prop :=
  exists email_text email_subject response choice rest,
    let cfg := client_config (environ_get w "AZURE_OPENAI_ENDPOINT")
                             (environ_get w "AZURE_OPENAI_API_KEY") in
    config_present w
    /\ request_fields req email_text email_subject
    /\ truthy email_text = true
    /\ quick_check email_text email_subject = inr false
    /\ AzureOpenAI w cfg = None
    /\ chat_completions_create w cfg
         (chat_request w (deployment_name w) email_text email_subject)
       = inr response
    /\ choices response = choice :: rest
    /\ message_content choice = result_text.

(** The request passes the configuration check, the field check and the
    quick check: the handler enters the outer [try]. *)
Definition reaches_model (w : World) (req : HttpRequest)
  (email_text email_subject : value) : Prop :=
  config_present w
  /\ request_fields req email_text email_subject
  /\ truthy email_text = true
  /\ quick_check email_text email_subject = inr false.

(** The client configuration that the handler reads from the environment. *)
Definition env_config (w : World) : ClientConfig :=
  client_config (environ_get w "AZURE_OPENAI_ENDPOINT")
                (environ_get w "AZURE_OPENAI_API_KEY").

(** The two shapes of a response: a 200 whose body is an object with a
    boolean [is_reservation], or a 400 or 500 whose body is the single string
    field [error]. *)
Definition well_formed_response (r : HttpResponse) : Prop :=
  mimetype r = "application/json"
  /\ ((status_code r = 200
       /\ exists doc b,
            body r = PyDict doc
            /\ dict_get "is_reservation" doc = Some (PyBool b))
      \/ ((status_code r = 400 \/ status_code r = 500)
          /\ exists msg, body r = PyDict [("error", PyStr msg)])).

(** The text fields the model declares. *)
Definition str_fields : list string :=
  ["date"; "start_time"; "end_time"; "court"; "organizer"; "error"].

(** The value under [name], if any, is [null] or a string. *)
Definition str_field_ok (name : string) (entries : dict) : Prop :=
  match dict_get name entries with
  | None | Some PyNone | Some (PyStr _) => True
  | Some _ => False
  end.

(** The value under [players], if any, is [null] or a list of strings. *)
Definition players_ok (entries : dict) : Prop :=
  match dict_get "players" entries with
  | None | Some PyNone => True
  | Some (PyList items) => forall x, In x items -> exists s, x = PyStr s
  | Some _ => False
  end.

(** The line errors of all eight fields, in declaration order. *)
Definition all_errors (entries : dict) : list line_error :=
  errors_of (required "is_reservation" validate_bool entries)
  ++ errors_of (optional "date" validate_str entries)
  ++ errors_of (optional "start_time" validate_str entries)
  ++ errors_of (optional "end_time" validate_str entries)
  ++ errors_of (optional "court" validate_str entries)
  ++ errors_of (optional "organizer" validate_str entries)
  ++ errors_of (optional "players" validate_list_str entries)
  ++ errors_of (optional "error" validate_str entries).

(** A validator reports at least one line error when it rejects. *)
Definition reports_errors {A : Type} (validate : value -> field_result A)
  : Prop :=
  forall v errs, validate v = inl errs -> errs <> [].

Definition is_create (ev : event) : bool :=
  match ev with
  | Create _ _ => true
  | NewClient _ => false
  end.

(** The upper-case form of a lower-case ASCII letter; other characters are
    left as they are. *)
Definition ascii_upper (c : ascii) : ascii :=
  let n := nat_of_ascii c in
  if ((97 <=? n) && (n <=? 122))%nat then ascii_of_nat (n - 32) else c.

(** Every way to write a word, each letter in either case. *)
Fixpoint case_variants (word : string) : list string :=
  match word with
  | EmptyString => [EmptyString]
  | String c rest =>
      flat_map (fun v => [String c v; String (ascii_upper c) v])
               (case_variants rest)
  end.

(** The strings that spell a truth value. *)
Definition truth_words (b : bool) : list string :=
  if b
  then "1" :: flat_map case_variants ["t"; "y"; "on"; "yes"; "true"]
  else "0" :: flat_map case_variants ["f"; "n"; "no"; "off"; "false"].

(** The values that spell a truth value: a boolean; one of the truth words;
    the integers 0 and 1; a float equal to zero or to one (a finite float
    of mantissa [m] and exponent [e] denotes [m * 2 ^ e]). *)
Inductive spells : value -> bool -> Prop :=
| spells_bool (b : bool) : spells (PyBool b) b
| spells_word (s : string) (b : bool) :
    In s (truth_words b) -> spells (PyStr s) b
| spells_zero : spells (PyInt 0) false
| spells_one : spells (PyInt 1) true
| spells_float_zero (sign : bool) : spells (PyFloat (S754_zero sign)) false
| spells_float_one (m : positive) (e : Z) :
    Z.pos m * 2 ^ Z.max e 0 = 2 ^ Z.max (- e) 0 ->
    spells (PyFloat (S754_finite false m e)) true.

(** The 256 characters, and the check that lowering [c] gives [d] exactly
    when [c] is [d] or its upper-case form, for a [d] that lowering leaves
    as it is. *)
Definition all_ascii : list ascii := map ascii_of_nat (seq 0 256).

Definition lower_ok (c d : ascii) : bool :=
  negb (Ascii.eqb (ascii_lower d) d)
  || Bool.eqb (Ascii.eqb (ascii_lower c) d)
              (Ascii.eqb c d || Ascii.eqb c (ascii_upper d)).

Fixpoint lower_stable (word : string) : bool :=
  match word with
  | EmptyString => true
  | String d rest => Ascii.eqb (ascii_lower d) d && lower_stable rest
  end.

(** The four answers the handler gives without entering the outer [try]. *)
Definition early_responses : list HttpResponse :=
  [ json_response [("error", PyStr "Azure OpenAI not configured")] 500;
    json_response [("error", PyStr "Invalid JSON in request body")] 400;
    json_response [("error", PyStr "email_text is required")] 400;
    json_response [("is_reservation", PyBool false)] 200 ].

(** ** Test doubles, after [test_function_app.py] *)

Definition MockHttpRequest (body : option value) : HttpRequest :=
  {| get_json := match body with
                 | None => inl "No JSON body"
                 | Some b => inr b
                 end |}.

(** The environment that the tests patch in. *)
Definition test_environ (name : string) : option string :=
  if String.eqb name "AZURE_OPENAI_ENDPOINT"
  then Some "https://test.openai.azure.com"
  else if String.eqb name "AZURE_OPENAI_API_KEY" then Some "test-key"
  else None.

Definition cleared_environ (name : string) : option string := None.

(** A decoder that knows the documents of [table] and rejects other text. *)
Definition mock_loads (table : list (string * value)) (text : string)
  : exn + value :=
  match dict_get text table with
  | Some v => inr v
  | None => inl (JSONDecodeError "Expecting value: line 1 column 1 (char 0)")
  end.

Definition mock_str (e : exn) : string :=
  match e with
  | JSONDecodeError msg | Exception msg => msg
  | ValidationError _ => "validation error for ReservationResponse"
  | TypeError (not_iterable _) => "argument is not iterable"
  | TypeError (not_a_mapping _) => "argument after ** must be a mapping"
  | TypeError not_text => "the JSON object must be str, bytes or bytearray"
  | AttributeError _ attr => "object has no attribute " ++ attr
  | IndexError => "list index out of range"
  | PydanticSerializationError => "Error serializing to JSON"
  end.

(** A world whose model answers every call with the one choice
    [result_text]. *)
Definition mock_world (environ : string -> option string)
  (result_text : string) (table : list (string * value)) : World :=
  {| environ_get := environ;
     AzureOpenAI := fun _ => None;
     chat_completions_create := fun _ _ =>
       inr {| choices := [ {| message_content := Some result_text |} ] |};
     json_loads := mock_loads table;
     str_exn := mock_str;
     format_value := fun _ => "" |}.

(** A world whose client constructor and whose model behave as given. *)
Definition stub_world (environ : string -> option string)
  (constructor : option exn) (reply : exn + ChatCompletion)
  (table : list (string * value)) : World :=
  {| environ_get := environ;
     AzureOpenAI := fun _ => constructor;
     chat_completions_create := fun _ _ => reply;
     json_loads := mock_loads table;
     str_exn := mock_str;
     format_value := fun _ => "" |}.

(** A request that passes the quick check. *)
Definition rally_request : HttpRequest :=
  MockHttpRequest
    (Some (PyDict [ ("email_text", PyStr "Reservation for John Smith on Dec 23");
                    ("email_subject", PyStr "Rally Club Reservation") ])).

(** The reply of the test [test_with_error], as a document and as text. *)
Definition reply_with_error : dict :=
  [ ("is_reservation", PyBool false);
    ("error", PyStr "Could not parse email") ].

Definition reply_with_error_text : string :=
  "{" ++ q "is_reservation" ++ ": false, "
  ++ q "error" ++ ": " ++ q "Could not parse email" ++ "}".

(** The reservation of the test [test_valid_reservation]. *)
Definition valid_reservation : dict :=
  [ ("is_reservation", PyBool true);
    ("date", PyStr "2024-12-23");
    ("start_time", PyStr "1:30pm");
    ("end_time", PyStr "3:30pm");
    ("court", PyStr "North");
    ("organizer", PyStr "John Smith");
    ("players", PyList [PyStr "John Smith"; PyStr "Jane Doe"]) ].

Definition valid_reservation_text : string :=
  "{" ++ q "is_reservation" ++ ": true, "
  ++ q "date" ++ ": " ++ q "2024-12-23" ++ ", "
  ++ q "start_time" ++ ": " ++ q "1:30pm" ++ ", "
  ++ q "end_time" ++ ": " ++ q "3:30pm" ++ ", "
  ++ q "court" ++ ": " ++ q "North" ++ ", "
  ++ q "organizer" ++ ": " ++ q "John Smith" ++ ", "
  ++ q "players" ++ ": [" ++ q "John Smith" ++ ", " ++ q "Jane Doe" ++ "]}".

(** The float 1.0 in binary64. *)
Definition float_one : spec_float := S754_finite false 4503599627370496 (-52).

(** The one-character [str] that holds the surrogate U+D800, as
    [json.loads] makes it from a lone escape. *)
Definition lone_surrogate : string :=
  String "237"%char (String "160"%char (String "128"%char EmptyString)).

(** A fully populated reservation whose organizer is that [str]. *)
Definition surrogate_reservation : dict :=
  [ ("is_reservation", PyBool true);
    ("date", PyStr "2024-12-23");
    ("start_time", PyStr "1:30pm");
    ("end_time", PyStr "3:30pm");
    ("court", PyStr "North");
    ("organizer", PyStr lone_surrogate);
    ("players", PyList [PyStr "John Smith"; PyStr "Jane Doe"]) ].

(** A reply that is an object without [is_reservation]. *)
Definition incomplete_reply : dict := [("date", PyStr "2024-12-23")].

Definition incomplete_reply_text : string :=
  "{" ++ q "date" ++ ": " ++ q "2024-12-23" ++ "}".

(** ** Substrings *)

Lemma prefix_iff_append (p s : string) :
  String.prefix p s = true <-> exists rest, s = p ++ rest.
Proof.
  revert s; induction p as [|c p IH]; intros [|d s]; simpl.
  - split; [now exists EmptyString | reflexivity].
  - split; [now exists (String d s) | reflexivity].
  - split; [discriminate | intros [rest H]; discriminate].
  - destruct (Ascii.ascii_dec c d) as [->|Hne].
    + rewrite IH. split; intros [rest H]; exists rest.
      * now rewrite H.
      * now injection H.
    + split; [discriminate|].
      intros [rest H]. injection H as Hc _. now elim Hne.
Qed.

Lemma str_contains_iff (needle hay : string) :
  str_contains needle hay = true <-> substring_of needle hay.
Proof.
  unfold substring_of.
  induction hay as [|c hay IH].
  - cbn [str_contains]. rewrite orb_false_r, prefix_iff_append. split.
    + intros [rest H]. now exists EmptyString, rest.
    + intros [[|d before] [after H]]; [now exists after | discriminate].
  - cbn [str_contains]. rewrite orb_true_iff, prefix_iff_append, IH. split.
    + intros [[rest H] | (before & after & H)].
      * now exists EmptyString, rest.
      * exists (String c before), after. simpl. now rewrite H.
    + intros ([|d before] & after & H).
      * left. now exists after.
      * right. injection H as _ H. now exists before, after.
Qed.

(** On two [str] operands the quick check rejects exactly when the marker
    is in neither. *)
Lemma quick_check_str (email_text email_subject : string) :
  quick_check (PyStr email_text) (PyStr email_subject)
  = inr (negb (str_contains MARKER email_text
               || str_contains MARKER email_subject)).
Proof.
  unfold quick_check, py_in.
  now destruct (str_contains MARKER email_text).
Qed.

(** ** Unfolding [parse_email] state by state *)

(** With the configuration present and an object for a body, the handler is
    at its field check. *)
Lemma parse_email_fields (w : World) (req : HttpRequest)
  (email_text email_subject : value) :
  config_present w ->
  request_fields req email_text email_subject ->
  parse_email w req
  = if negb (truthy email_text)
    then (Return (json_response [("error", PyStr "email_text is required")] 400),
          [])
    else match quick_check email_text email_subject with
         | inl e => (Raise e, [])
         | inr true =>
             (Return (json_response [("is_reservation", PyBool false)] 200), [])
         | inr false =>
             call_openai w (environ_get w "AZURE_OPENAI_ENDPOINT")
                         (environ_get w "AZURE_OPENAI_API_KEY")
                         (deployment_name w) email_text email_subject
         end.
Proof.
  intros [He Hk] (entries & Hj & Ht & Hs).
  unfold parse_email. rewrite He, Hk, Hj. cbn [negb orb].
  now rewrite Ht, Hs.
Qed.

Lemma parse_email_reply (w : World) (req : HttpRequest)
  (result_text : option string) :
  model_replies w req result_text ->
  exists trace,
    parse_email w req = (validate_response w result_text, trace)
    /\ trace <> [].
Proof.
  intros (email_text & email_subject & response & choice & rest & H).
  cbv zeta in H.
  destruct H as (Hc & Hf & Ht & Hq & Ha & Hr & Hch & Hm).
  rewrite (parse_email_fields w req email_text email_subject Hc Hf).
  rewrite Ht, Hq. cbn [negb]. unfold call_openai.
  rewrite Ha, Hr, Hch, Hm.
  eexists; split; [reflexivity | discriminate].
Qed.

Lemma configured_iff (o : option string) :
  configured o = true <-> exists s, o = Some s /\ s <> "".
Proof.
  destruct o as [s|]; simpl.
  - rewrite negb_true_iff, String.eqb_neq. split.
    + intros H. now exists s.
    + intros (t & Ht & Hne). now injection Ht as ->.
  - split; [discriminate | intros (s & H & _); discriminate].
Qed.

Lemma not_config_present (w : World) :
  ~ config_present w ->
  configured (environ_get w "AZURE_OPENAI_ENDPOINT") = false
  \/ configured (environ_get w "AZURE_OPENAI_API_KEY") = false.
Proof.
  unfold config_present. intros H.
  destruct (configured (environ_get w "AZURE_OPENAI_ENDPOINT")); [|now left].
  destruct (configured (environ_get w "AZURE_OPENAI_API_KEY")); [|now right].
  now elim H.
Qed.

Lemma truthy_str (s : string) : truthy (PyStr s) = true <-> s <> "".
Proof.
  simpl. now rewrite negb_true_iff, String.eqb_neq.
Qed.

(** Entering the outer [try] always starts by building the client. *)
Lemma call_openai_trace (w : World) (endpoint key : option string)
  (deployment : string) (email_text email_subject : value) :
  exists rest,
    snd (call_openai w endpoint key deployment email_text email_subject)
    = NewClient (client_config endpoint key) :: rest.
Proof.
  unfold call_openai.
  destruct (AzureOpenAI w _); [now eexists|].
  destruct (chat_completions_create w _ _) as [e|response]; [now eexists|].
  destruct (choices response); now eexists.
Qed.

(** ** The request handler, state by state *)

(** C5. When a required configuration value (endpoint or credential) is
    absent or empty, [parse_email] answers 500 with the single field
    [error], whatever the request is: the configuration is checked before
    the body is decoded, so a malformed body or a missing [email_text]
    changes nothing, and the model is not called. *)
Theorem config_check_comes_first (w : World) (req : HttpRequest) :
  ~ config_present w ->
  parse_email w req
  = (Return {| body := PyDict [("error", PyStr "Azure OpenAI not configured")];
               status_code := 500;
               mimetype := "application/json" |},
     []).
Proof.
  intros H. apply not_config_present in H.
  unfold parse_email. destruct H as [H | H]; rewrite H; simpl.
  - reflexivity.
  - now rewrite orb_true_r.
Qed.

(** The configuration is absent and the body is not JSON: the answer is the
    500 of the configuration check, not the 400 of the body. *)
Lemma config_check_comes_first_witness :
  ~ config_present (mock_world cleared_environ "" [])
  /\ get_json (MockHttpRequest None) = inl "No JSON body"
  /\ parse_email (mock_world cleared_environ "" []) (MockHttpRequest None)
     = (Return {| body := PyDict [("error", PyStr "Azure OpenAI not configured")];
                  status_code := 500;
                  mimetype := "application/json" |},
        []).
Proof.
  assert (H : ~ config_present (mock_world cleared_environ "" []))
    by (intros [H _]; discriminate H).
  split; [exact H | split; [reflexivity|]].
  exact (config_check_comes_first _ (MockHttpRequest None) H).
Defined.




(** C4. For a subject and a body that are strings, the quick check lets the
    request through exactly when "Rally Club" occurs, as an exact
    case-sensitive substring, in the body or in the subject. In the handler
    (configuration present, body not empty) the model is called exactly in
    that case; when the marker is in neither, the answer is 200 with
    [{"is_reservation": false}] and no call to the model is made. *)
Theorem quick_check_marker (email_text email_subject : string) :
  (quick_check (PyStr email_text) (PyStr email_subject) = inr false
   <-> substring_of "Rally Club" email_text
       \/ substring_of "Rally Club" email_subject)
  /\ forall (w : World) (req : HttpRequest),
       config_present w ->
       request_fields req (PyStr email_text) (PyStr email_subject) ->
       email_text <> "" ->
       (snd (parse_email w req) <> []
        <-> substring_of "Rally Club" email_text
            \/ substring_of "Rally Club" email_subject)
       /\ (~ (substring_of "Rally Club" email_text
              \/ substring_of "Rally Club" email_subject) ->
           parse_email w req
           = (Return {| body := PyDict [("is_reservation", PyBool false)];
                        status_code := 200;
                        mimetype := "application/json" |},
              [])).
Proof.
  assert (Hq : quick_check (PyStr email_text) (PyStr email_subject) = inr false
               <-> substring_of "Rally Club" email_text
                   \/ substring_of "Rally Club" email_subject).
  { rewrite quick_check_str, <- !str_contains_iff, <- orb_true_iff.
    fold MARKER.
    destruct (str_contains MARKER email_text || str_contains MARKER email_subject);
      simpl; split; congruence. }
  split; [exact Hq|].
  intros w req Hc Hf Hne.
  rewrite (parse_email_fields w req _ _ Hc Hf).
  apply truthy_str in Hne. rewrite Hne. cbn [negb].
  rewrite <- Hq, quick_check_str.
  destruct (str_contains MARKER email_text || str_contains MARKER email_subject);
    cbn [negb].
  - split.
    + split; [reflexivity|].
      intros _.
      destruct (call_openai_trace w (environ_get w "AZURE_OPENAI_ENDPOINT")
                  (environ_get w "AZURE_OPENAI_API_KEY") (deployment_name w)
                  (PyStr email_text) (PyStr email_subject)) as [rest ->].
      discriminate.
    + intros H. now elim H.
  - split.
    + split; [intros H; now elim H | discriminate].
    + reflexivity.
Qed.

(** The request of the test [test_not_a_reservation]: neither text mentions
    the marker, so the handler answers without the model. *)
Lemma quick_check_marker_witness :
  config_present (mock_world test_environ "" [])
  /\ request_fields
       (MockHttpRequest
          (Some (PyDict [ ("email_text",
                           PyStr "Hey, want to play pickleball sometime?");
                          ("email_subject", PyStr "Pickleball") ])))
       (PyStr "Hey, want to play pickleball sometime?") (PyStr "Pickleball")
  /\ "Hey, want to play pickleball sometime?" <> ""
  /\ parse_email (mock_world test_environ "" [])
       (MockHttpRequest
          (Some (PyDict [ ("email_text",
                           PyStr "Hey, want to play pickleball sometime?");
                          ("email_subject", PyStr "Pickleball") ])))
     = (Return {| body := PyDict [("is_reservation", PyBool false)];
                  status_code := 200;
                  mimetype := "application/json" |},
        []).
Proof.
  assert (Hc : config_present (mock_world test_environ "" []))
    by (split; reflexivity).
  assert (Hf : request_fields
                 (MockHttpRequest
                    (Some (PyDict [ ("email_text",
                                     PyStr "Hey, want to play pickleball sometime?");
                                    ("email_subject", PyStr "Pickleball") ])))
                 (PyStr "Hey, want to play pickleball sometime?")
                 (PyStr "Pickleball"))
    by (eexists; repeat split; reflexivity).
  assert (Hne : "Hey, want to play pickleball sometime?" <> "")
    by discriminate.
  split; [exact Hc | split; [exact Hf | split; [exact Hne|]]].
  apply (proj2 (quick_check_marker "Hey, want to play pickleball sometime?"
                  "Pickleball") _ _ Hc Hf Hne).
  intros [H | H]; apply str_contains_iff in H; discriminate H.
Defined.

(** ** The health handler *)

(** C9. For every request and every environment, [health] returns 200 with
    [{"status": "ok", "openai_configured": b}], where [b] is true exactly
    when the endpoint and the credential are both set and not empty. It is a
    total function that never raises and has no other status. *)
Theorem health_reports_configuration (w : World) (req : HttpRequest) :
  exists b : bool,
    health w req
    = Return {| body := PyDict [ ("status", PyStr "ok");
                                 ("openai_configured", PyBool b) ];
                status_code := 200;
                mimetype := "application/json" |}
    /\ (b = true
        <-> exists endpoint key,
              environ_get w "AZURE_OPENAI_ENDPOINT" = Some endpoint
              /\ endpoint <> ""
              /\ environ_get w "AZURE_OPENAI_API_KEY" = Some key
              /\ key <> "").
Proof.
  eexists. split; [reflexivity|].
  destruct (configured (environ_get w "AZURE_OPENAI_ENDPOINT")) eqn:He.
  - rewrite configured_iff. apply configured_iff in He.
    destruct He as (endpoint & He & Hne). split.
    + intros (key & Hk & Hkne). now exists endpoint, key.
    + intros (e' & key & _ & _ & Hk & Hkne). now exists key.
  - split; [discriminate|].
    intros (endpoint & key & H1 & H2 & _).
    assert (configured (environ_get w "AZURE_OPENAI_ENDPOINT") = true)
      by (apply configured_iff; now exists endpoint).
    congruence.
Qed.

(** ** Validating the model's reply *)

(** C6. When the handler has reached the model and [json.loads] rejects the
    text of the reply with a [JSONDecodeError], [parse_email] answers 200,
    not a 5xx status, with [is_reservation] false and an [error] that starts
    with "Failed to parse AI response: " and goes on with the text of the
    exception. *)
Theorem undecodable_reply_is_not_fatal (w : World) (req : HttpRequest)
  (text msg : string) :
  model_replies w req (Some text) ->
  json_loads w text = inl (JSONDecodeError msg) ->
  fst (parse_email w req)
  = Return {| body := PyDict
                [ ("is_reservation", PyBool false);
                  ("error", PyStr ("Failed to parse AI response: "
                                   ++ str_exn w (JSONDecodeError msg))) ];
              status_code := 200;
              mimetype := "application/json" |}.
Proof.
  intros Hr Hl.
  destruct (parse_email_reply w req _ Hr) as (trace & -> & _).
  unfold validate_response, inner_try, parse_and_validate, loads_content.
  now rewrite Hl.
Qed.

Lemma model_replies_mock (result_text : string) (table : list (string * value)) :
  model_replies (mock_world test_environ result_text table) rally_request
                (Some result_text).
Proof.
  exists (PyStr "Reservation for John Smith on Dec 23"),
         (PyStr "Rally Club Reservation").
  eexists; eexists; eexists. cbv zeta.
  split; [split; reflexivity|].
  split; [eexists; repeat split; reflexivity|].
  repeat split; reflexivity.
Defined.

(** The scenario of the test [test_invalid_ai_response], on a request that
    passes the quick check: the model says [not valid json]. *)
Lemma undecodable_reply_is_not_fatal_witness :
  model_replies (mock_world test_environ "not valid json" []) rally_request
                (Some "not valid json")
  /\ json_loads (mock_world test_environ "not valid json" []) "not valid json"
     = inl (JSONDecodeError "Expecting value: line 1 column 1 (char 0)")
  /\ fst (parse_email (mock_world test_environ "not valid json" [])
                      rally_request)
     = Return {| body := PyDict
                   [ ("is_reservation", PyBool false);
                     ("error",
                      PyStr "Failed to parse AI response: Expecting value: line 1 column 1 (char 0)") ];
                 status_code := 200;
                 mimetype := "application/json" |}.
Proof.
  split; [apply model_replies_mock | split; [reflexivity|]].
  apply (undecodable_reply_is_not_fatal
           (mock_world test_environ "not valid json" []) rally_request
           "not valid json" "Expecting value: line 1 column 1 (char 0)").
  - apply model_replies_mock.
  - reflexivity.
Defined.

(** When the reply decodes to a value that is not a dict, unpacking it into
    keyword arguments raises [TypeError]; the inner handler does not list
    that class, so the outer one answers. *)
Lemma non_mapping_reply (w : World) (req : HttpRequest) (text : string)
  (v : value) :
  model_replies w req (Some text) ->
  json_loads w text = inr v ->
  (forall entries, v <> PyDict entries) ->
  fst (parse_email w req)
  = Return {| body := PyDict
                [ ("error", PyStr ("AI processing failed: "
                                   ++ str_exn w (TypeError (not_a_mapping v)))) ];
              status_code := 500;
              mimetype := "application/json" |}.
Proof.
  intros Hr Hl Hv.
  destruct (parse_email_reply w req _ Hr) as (trace & -> & _).
  unfold validate_response, inner_try, parse_and_validate, loads_content.
  rewrite Hl.
  destruct v; try reflexivity.
  now elim (Hv entries).
Qed.

(** C1. The specification asks for 200 and "Failed to parse AI response"
    whenever the reply decodes to JSON that is not an object. Evaluated on a
    reply
    that is the JSON array [[]], on a request that passes the quick check,
    [parse_email] answers 500 with "AI processing failed". *)
Theorem array_reply_is_answered_500 :
  json_loads (mock_world test_environ "[]" [("[]", PyList [])]) "[]"
  = inr (PyList [])
  /\ parse_email (mock_world test_environ "[]" [("[]", PyList [])]) rally_request
     = (Return {| body := PyDict
                    [ ("error",
                       PyStr "AI processing failed: argument after ** must be a mapping") ];
                  status_code := 500;
                  mimetype := "application/json" |},
        [ NewClient (client_config (Some "https://test.openai.azure.com")
                                   (Some "test-key"));
          Create (client_config (Some "https://test.openai.azure.com")
                                (Some "test-key"))
                 (chat_request (mock_world test_environ "[]" [("[]", PyList [])])
                    "gpt-4o-mini"
                    (PyStr "Reservation for John Smith on Dec 23")
                    (PyStr "Rally Club Reservation")) ]).
Proof.
  split; reflexivity.
Qed.

(** ** The schema validator *)

(** The lax conversion to [bool], case by case. *)
Lemma lax_bool_table :
  lax_bool (PyBool true) = Some true
  /\ lax_bool (PyBool false) = Some false
  /\ lax_bool (PyStr "true") = Some true
  /\ lax_bool (PyStr "False") = Some false
  /\ lax_bool (PyStr "YES") = Some true
  /\ lax_bool (PyStr "0") = Some false
  /\ lax_bool (PyStr "maybe") = None
  /\ lax_bool (PyStr "") = None
  /\ lax_bool (PyInt 1) = Some true
  /\ lax_bool (PyInt 0) = Some false
  /\ lax_bool (PyInt 2) = None
  /\ lax_bool (PyFloat float_one) = Some true
  /\ lax_bool (PyFloat (S754_zero false)) = Some false
  /\ lax_bool (PyFloat S754_nan) = None
  /\ lax_bool PyNone = None.
Proof.
  repeat split.
Qed.

(** The successful parse of the tests, end to end: the reply of the model
    comes back as the body, with the unset [error] as [null]. *)
Lemma successful_parse :
  parse_email
    (mock_world test_environ valid_reservation_text
                [(valid_reservation_text, PyDict valid_reservation)])
    rally_request
  = (Return {| body := PyDict (valid_reservation ++ [("error", PyNone)]);
               status_code := 200;
               mimetype := "application/json" |},
     [ NewClient (client_config (Some "https://test.openai.azure.com")
                                (Some "test-key"));
       Create (client_config (Some "https://test.openai.azure.com")
                             (Some "test-key"))
              (chat_request
                 (mock_world test_environ valid_reservation_text
                             [(valid_reservation_text, PyDict valid_reservation)])
                 "gpt-4o-mini"
                 (PyStr "Reservation for John Smith on Dec 23")
                 (PyStr "Rally Club Reservation")) ]).
Proof.
  reflexivity.
Qed.

(** A model is built only from eight accepted fields. *)
Lemma init_fields (entries : dict) (r : ReservationResponse) :
  ReservationResponse_init entries = inr r ->
  required "is_reservation" validate_bool entries = inr (is_reservation r)
  /\ optional "date" validate_str entries = inr (date r)
  /\ optional "start_time" validate_str entries = inr (start_time r)
  /\ optional "end_time" validate_str entries = inr (end_time r)
  /\ optional "court" validate_str entries = inr (court r)
  /\ optional "organizer" validate_str entries = inr (organizer r)
  /\ optional "players" validate_list_str entries = inr (players r)
  /\ optional "error" validate_str entries = inr (error r).
Proof.
  unfold ReservationResponse_init.
  destruct (required "is_reservation" validate_bool entries); [discriminate|].
  destruct (optional "date" validate_str entries); [discriminate|].
  destruct (optional "start_time" validate_str entries); [discriminate|].
  destruct (optional "end_time" validate_str entries); [discriminate|].
  destruct (optional "court" validate_str entries); [discriminate|].
  destruct (optional "organizer" validate_str entries); [discriminate|].
  destruct (optional "players" validate_list_str entries); [discriminate|].
  destruct (optional "error" validate_str entries); [discriminate|].
  intros H. injection H as <-. simpl. repeat split.
Qed.

(** A rejected [is_reservation] is among the errors that are raised. *)
Lemma init_is_reservation_rejected (entries : dict) (errs : list line_error) :
  required "is_reservation" validate_bool entries = inl errs ->
  exists rest,
    ReservationResponse_init entries = inl (ValidationError (errs ++ rest)).
Proof.
  intros H. unfold ReservationResponse_init. rewrite H. simpl.
  now eexists.
Qed.

(** What an optional [str] field keeps of the document. *)
Lemma optional_str_value (name : string) (entries : dict) (o : option string) :
  optional name validate_str entries = inr o ->
  dump_opt_str o
  = match dict_get name entries with
    | Some (PyStr s) => PyStr s
    | _ => PyNone
    end.
Proof.
  unfold optional.
  destruct (dict_get name entries) as [v|].
  - destruct v; simpl; try discriminate; intros H; now injection H as <-.
  - intros H. now injection H as <-.
Qed.

Lemma optional_str_accepts (name : string) (entries : dict) (s : string) :
  dict_get name entries = Some (PyStr s) ->
  optional name validate_str entries = inr (Some s).
Proof.
  intros H. unfold optional. now rewrite H.
Qed.

Lemma validate_str_items_map (i : nat) (l : list string) :
  validate_str_items i (map PyStr l) = ([], l).
Proof.
  revert i; induction l as [|s l IH]; intros i; simpl.
  - reflexivity.
  - now rewrite IH.
Qed.

(** The statement of C3 fails: the string "true" and the number 1 under
    [is_reservation] are accepted and become the boolean true. *)
Lemma string_true_is_coerced :
  (forall b, PyStr "true" <> PyBool b)
  /\ (forall b, PyInt 1 <> PyBool b)
  /\ ReservationResponse_init [("is_reservation", PyStr "true")]
  = inr {| is_reservation := true; date := None; start_time := None;
           end_time := None; court := None; organizer := None;
           players := None; error := None |}
  /\ ReservationResponse_init [("is_reservation", PyInt 1)]
     = inr {| is_reservation := true; date := None; start_time := None;
              end_time := None; court := None; organizer := None;
              players := None; error := None |}.
Proof.
  split; [discriminate | split; [discriminate | split; reflexivity]].
Qed.

(** C2, as the code has it. On the success path (the handler has reached the
    model, the reply decodes to an object, the object passes validation and
    the strings of the model can be written as UTF-8, which is to say that
    none holds a surrogate code point) the answer is 200 with the serialized
    model, and the [error] field of that body is the [error] of the reply
    itself: the string the reply carries under [error], passed through
    unchanged, or [null] when the reply has no such key or has [null]
    there. *)
Theorem success_body_keeps_reply_error (w : World) (req : HttpRequest)
  (text : string) (reply : dict) (r : ReservationResponse) :
  model_replies w req (Some text) ->
  json_loads w text = inr (PyDict reply) ->
  ReservationResponse_init reply = inr r ->
  serializable r = true ->
  exists doc,
    fst (parse_email w req)
    = Return {| body := PyDict doc;
                status_code := 200;
                mimetype := "application/json" |}
    /\ model_dump_json r = inr (PyDict doc)
    /\ dict_get "error" doc
       = Some (match dict_get "error" reply with
               | Some (PyStr s) => PyStr s
               | _ => PyNone
               end).
Proof.
  intros Hr Hl Hi Hs.
  destruct (parse_email_reply w req _ Hr) as (trace & -> & _).
  unfold validate_response, inner_try, parse_and_validate, loads_content.
  rewrite Hl. cbn [ReservationResponse_unpack]. rewrite Hi.
  unfold model_dump_json. rewrite Hs.
  eexists. split; [reflexivity|]. split; [reflexivity|].
  apply init_fields in Hi.
  destruct Hi as (_ & _ & _ & _ & _ & _ & _ & He).
  cbn. now rewrite (optional_str_value "error" reply _ He).
Qed.

Lemma success_body_keeps_reply_error_witness :
  model_replies
    (mock_world test_environ reply_with_error_text
                [(reply_with_error_text, PyDict reply_with_error)])
    rally_request (Some reply_with_error_text)
  /\ exists doc,
       fst (parse_email
              (mock_world test_environ reply_with_error_text
                          [(reply_with_error_text, PyDict reply_with_error)])
              rally_request)
       = Return {| body := PyDict doc;
                   status_code := 200;
                   mimetype := "application/json" |}
       /\ dict_get "error" doc = Some (PyStr "Could not parse email").
Proof.
  split; [apply model_replies_mock|].
  destruct (success_body_keeps_reply_error
              (mock_world test_environ reply_with_error_text
                          [(reply_with_error_text, PyDict reply_with_error)])
              rally_request reply_with_error_text reply_with_error
              {| is_reservation := false; date := None; start_time := None;
                 end_time := None; court := None; organizer := None;
                 players := None; error := Some "Could not parse email" |}
              (model_replies_mock _ _) eq_refl eq_refl eq_refl)
    as (doc & Hp & _ & He).
  exists doc. split; [exact Hp | exact He].
Defined.

(** The statement of C2 fails: the reply of [test_with_error] passes
    validation,
    and the body of the 200 answer carries its [error]. *)
Lemma success_body_with_error :
  json_loads
    (mock_world test_environ reply_with_error_text
                [(reply_with_error_text, PyDict reply_with_error)])
    reply_with_error_text
  = inr (PyDict reply_with_error)
  /\ ReservationResponse_init reply_with_error
     = inr {| is_reservation := false; date := None; start_time := None;
              end_time := None; court := None; organizer := None;
              players := None; error := Some "Could not parse email" |}
  /\ fst (parse_email
            (mock_world test_environ reply_with_error_text
                        [(reply_with_error_text, PyDict reply_with_error)])
            rally_request)
     = Return {| body := PyDict
                   [ ("is_reservation", PyBool false);
                     ("date", PyNone);
                     ("start_time", PyNone);
                     ("end_time", PyNone);
                     ("court", PyNone);
                     ("organizer", PyNone);
                     ("players", PyNone);
                     ("error", PyStr "Could not parse email") ];
                 status_code := 200;
                 mimetype := "application/json" |}.
Proof.
  split; [reflexivity | split; reflexivity].
Qed.

(** A [str] that holds no surrogate is serialized as it is. *)
Lemma serializable_intro (b : bool) (d st et c o e : option string)
  (ps : option (list string)) :
  opt_encodable d = true -> opt_encodable st = true ->
  opt_encodable et = true -> opt_encodable c = true ->
  opt_encodable o = true ->
  match ps with Some l => forallb encodable l | None => true end = true ->
  opt_encodable e = true ->
  model_dump_json {| is_reservation := b; date := d; start_time := st;
                     end_time := et; court := c; organizer := o;
                     players := ps; error := e |}
  = inr (model_dump {| is_reservation := b; date := d; start_time := st;
                       end_time := et; court := c; organizer := o;
                       players := ps; error := e |}).
Proof.
  intros Hd Hst Het Hc Ho Hps He.
  unfold model_dump_json, serializable. cbn.
  now rewrite Hd, Hst, Het, Hc, Ho, Hps, He.
Qed.

(** C8, as the code has it. A fully populated valid object (a boolean
    [is_reservation], a string for each of [date], [start_time], [end_time],
    [court] and [organizer], a list of strings for [players], and an [error]
    that is absent, [null] or a string) whose strings hold no surrogate code
    point builds a model that serializes, and each of the seven fields of
    the serialized model has the value it has in the object; the players
    come out in the order they went in. *)
Theorem round_trip (entries : dict) (b : bool)
  (d st et c o : string) (ps : list string) :
  dict_get "is_reservation" entries = Some (PyBool b) ->
  dict_get "date" entries = Some (PyStr d) ->
  dict_get "start_time" entries = Some (PyStr st) ->
  dict_get "end_time" entries = Some (PyStr et) ->
  dict_get "court" entries = Some (PyStr c) ->
  dict_get "organizer" entries = Some (PyStr o) ->
  dict_get "players" entries = Some (PyList (map PyStr ps)) ->
  (forall v, dict_get "error" entries = Some v ->
             v = PyNone \/ exists s, v = PyStr s /\ encodable s = true) ->
  encodable d = true -> encodable st = true -> encodable et = true ->
  encodable c = true -> encodable o = true ->
  forallb encodable ps = true ->
  exists r doc,
    ReservationResponse_init entries = inr r
    /\ model_dump_json r = inr (PyDict doc)
    /\ players r = Some ps
    /\ dict_get "is_reservation" doc = dict_get "is_reservation" entries
    /\ dict_get "date" doc = dict_get "date" entries
    /\ dict_get "start_time" doc = dict_get "start_time" entries
    /\ dict_get "end_time" doc = dict_get "end_time" entries
    /\ dict_get "court" doc = dict_get "court" entries
    /\ dict_get "organizer" doc = dict_get "organizer" entries
    /\ dict_get "players" doc = dict_get "players" entries.
Proof.
  intros Hb Hd Hst Het Hc Ho Hps He Ed Est Eet Ec Eo Eps.
  assert (Fb : required "is_reservation" validate_bool entries = inr b)
    by (unfold required; now rewrite Hb).
  assert (Fps : optional "players" validate_list_str entries = inr (Some ps)).
  { unfold optional, nullable, validate_list_str. rewrite Hps.
    now rewrite validate_str_items_map. }
  assert (Fe : exists e, optional "error" validate_str entries = inr e
                         /\ opt_encodable e = true).
  { unfold optional.
    destruct (dict_get "error" entries) as [v|]; [|now exists None].
    destruct (He v eq_refl) as [-> | (s & -> & Es)];
      [now exists None | now exists (Some s)]. }
  destruct Fe as (e & Fe & Ee).
  unfold ReservationResponse_init.
  rewrite Fb, Fps, Fe.
  rewrite (optional_str_accepts _ _ _ Hd), (optional_str_accepts _ _ _ Hst),
    (optional_str_accepts _ _ _ Het), (optional_str_accepts _ _ _ Hc),
    (optional_str_accepts _ _ _ Ho).
  eexists. eexists. split; [reflexivity|].
  split; [now apply serializable_intro|].
  rewrite Hb, Hd, Hst, Het, Hc, Ho, Hps.
  cbn. repeat split.
Qed.

(** The reservation of the tests goes through unchanged; the serialized
    model adds the [error] it does not have, as [null]. *)
Lemma round_trip_witness :
  exists r,
    ReservationResponse_init valid_reservation = inr r
    /\ model_dump_json r
       = inr (PyDict (valid_reservation ++ [("error", PyNone)]))
    /\ players r = Some ["John Smith"; "Jane Doe"].
Proof.
  destruct (round_trip valid_reservation true "2024-12-23" "1:30pm" "3:30pm"
              "North" "John Smith" ["John Smith"; "Jane Doe"]
              eq_refl eq_refl eq_refl eq_refl eq_refl eq_refl eq_refl)
    as (r & doc & Hr & _ & Hp & _); try reflexivity.
  - intros v H. discriminate H.
  - exists r. split; [exact Hr|]. split; [|exact Hp].
    cbv in Hr. injection Hr as <-. reflexivity.
Defined.

(** The statement of C8 fails: a fully populated object whose organizer is
    a [str] holding a lone surrogate is valid and builds a model, but the
    model cannot be serialized; on a request that reaches the model the
    answer is 500, not the body with the same fields. *)
Lemma surrogate_is_not_serialized :
  encodable lone_surrogate = false
  /\ (exists r,
        ReservationResponse_init surrogate_reservation = inr r
        /\ organizer r = Some lone_surrogate
        /\ model_dump_json r = inl PydanticSerializationError)
  /\ fst (parse_email
            (mock_world test_environ "reply"
                        [("reply", PyDict surrogate_reservation)])
            rally_request)
     = Return {| body := PyDict
                   [("error",
                     PyStr "AI processing failed: Error serializing to JSON")];
                 status_code := 500;
                 mimetype := "application/json" |}.
Proof.
  split; [reflexivity|]. split; [|reflexivity].
  eexists. split; [reflexivity|]. split; reflexivity.
Qed.

(** ** Values of other types in the request *)

(** The outer [try] turns every failure into a response. *)
Lemma call_openai_returns (w : World) (endpoint key : option string)
  (deployment : string) (email_text email_subject : value) :
  exists response,
    fst (call_openai w endpoint key deployment email_text email_subject)
    = Return response.
Proof.
  unfold call_openai.
  destruct (AzureOpenAI w _); [now eexists|].
  destruct (chat_completions_create w _ _) as [e|response]; [now eexists|].
  destruct (choices response) as [|choice rest]; [now eexists|].
  cbn [fst]. unfold validate_response.
  destruct (inner_try w (message_content choice)) as [e|r];
    [destruct e|]; now eexists.
Qed.

Lemma py_in_scalar (needle : string) (v : value) :
  scalar v -> py_in needle v = inl (TypeError (not_iterable v)).
Proof.
  intros [-> | [[b ->] | [[n ->] | [f ->]]]]; reflexivity.
Qed.

(** C10. The field check tests truth value, not type. With the
    configuration present there is a well-formed request body, a JSON object
    whose [email_text] is a truthy value that is not a string, on which
    [parse_email] passes the field check and then raises, at the membership
    test of the quick check, a [TypeError] that no handler catches. This
    happens for every truthy number or boolean [email_text] (such as 5), and
    for an [email_subject] that is a number, a boolean or [null] when
    [email_text] is a non-empty string without the marker. When [email_text]
    and [email_subject] are both strings the handler always returns a
    response. *)
Theorem field_check_tests_truth_value_only (w : World) :
  config_present w ->
  (exists req email_text,
     request_fields req email_text (PyStr "")
     /\ truthy email_text = true
     /\ (forall s, email_text <> PyStr s)
     /\ parse_email w req = (Raise (TypeError (not_iterable email_text)), []))
  /\ (forall req email_text email_subject,
        request_fields req email_text email_subject ->
        truthy email_text = true ->
        scalar email_text ->
        parse_email w req = (Raise (TypeError (not_iterable email_text)), []))
  /\ (forall req email_text email_subject,
        request_fields req (PyStr email_text) email_subject ->
        email_text <> "" ->
        ~ substring_of "Rally Club" email_text ->
        scalar email_subject ->
        parse_email w req = (Raise (TypeError (not_iterable email_subject)), []))
  /\ (forall req email_text email_subject,
        request_fields req (PyStr email_text) (PyStr email_subject) ->
        exists response, fst (parse_email w req) = Return response).
Proof.
  intros Hc.
  assert (H1 : forall req email_text email_subject,
             request_fields req email_text email_subject ->
             truthy email_text = true ->
             scalar email_text ->
             parse_email w req
             = (Raise (TypeError (not_iterable email_text)), [])).
  { intros req email_text email_subject Hf Ht Hs.
    rewrite (parse_email_fields w req _ _ Hc Hf), Ht. cbn [negb].
    unfold quick_check. now rewrite (py_in_scalar _ _ Hs). }
  split; [|split; [exact H1|split]].
  - exists (MockHttpRequest (Some (PyDict [("email_text", PyInt 5)]))),
      (PyInt 5).
    assert (Hf : request_fields
                   (MockHttpRequest (Some (PyDict [("email_text", PyInt 5)])))
                   (PyInt 5) (PyStr ""))
      by (eexists; split; [reflexivity | split; reflexivity]).
    split; [exact Hf|]. split; [reflexivity|]. split; [discriminate|].
    apply (H1 _ _ _ Hf eq_refl). right; right; left. now exists 5.
  - intros req email_text email_subject Hf Hne Hm Hs.
    rewrite (parse_email_fields w req _ _ Hc Hf).
    apply truthy_str in Hne. rewrite Hne. cbn [negb].
    unfold quick_check. cbn [py_in].
    destruct (str_contains MARKER email_text) eqn:E.
    + apply str_contains_iff in E. now elim Hm.
    + now rewrite (py_in_scalar _ _ Hs).
  - intros req email_text email_subject Hf.
    rewrite (parse_email_fields w req _ _ Hc Hf).
    destruct (negb (truthy (PyStr email_text))); [now eexists|].
    rewrite quick_check_str.
    destruct (negb (str_contains MARKER email_text
                    || str_contains MARKER email_subject)); [now eexists|].
    apply call_openai_returns.
Qed.

(** A body whose [email_text] is the number 5. *)
Lemma field_check_tests_truth_value_only_witness :
  config_present (mock_world test_environ "" [])
  /\ truthy (PyInt 5) = true
  /\ parse_email (mock_world test_environ "" [])
       (MockHttpRequest (Some (PyDict [("email_text", PyInt 5)])))
     = (Raise (TypeError (not_iterable (PyInt 5))), []).
Proof.
  assert (Hc : config_present (mock_world test_environ "" []))
    by (split; reflexivity).
  split; [exact Hc | split; [reflexivity|]].
  apply (proj1 (proj2 (field_check_tests_truth_value_only
                         (mock_world test_environ "" []) Hc))
           (MockHttpRequest (Some (PyDict [("email_text", PyInt 5)])))
           (PyInt 5) (PyStr "")).
  - exists [("email_text", PyInt 5)]. split; [reflexivity | split; reflexivity].
  - reflexivity.
  - right; right; left. now exists 5.
Defined.

(** ** More on the schema validator *)

Lemma validate_bool_reports : reports_errors validate_bool.
Proof.
  intros v errs. unfold validate_bool.
  destruct (lax_bool v); [discriminate|].
  intros H. injection H as <-. discriminate.
Qed.

Lemma validate_str_reports : reports_errors validate_str.
Proof.
  intros v errs.
  destruct v; simpl; try discriminate; intros H; injection H as <-;
    discriminate.
Qed.

Lemma validate_list_str_reports : reports_errors validate_list_str.
Proof.
  intros v errs.
  destruct v; simpl; try (intros H; injection H as <-; discriminate).
  destruct (validate_str_items 0 items) as [[|e es] strs]; [discriminate|].
  intros H. injection H as <-. discriminate.
Qed.

Lemma required_reports {A : Type} (name : string)
  (validate : value -> field_result A) (entries : dict)
  (errs : list line_error) :
  reports_errors validate ->
  required name validate entries = inl errs -> errs <> [].
Proof.
  intros Hv. unfold required.
  destruct (dict_get name entries) as [v|].
  - destruct (validate v) as [l|a] eqn:E; [|discriminate].
    intros H. injection H as <-.
    apply Hv in E. destruct l; [now elim E | discriminate].
  - intros H. injection H as <-. discriminate.
Qed.

Lemma optional_reports {A : Type} (name : string)
  (validate : value -> field_result A) (entries : dict)
  (errs : list line_error) :
  reports_errors validate ->
  optional name validate entries = inl errs -> errs <> [].
Proof.
  intros Hv. unfold optional, nullable.
  destruct (dict_get name entries) as [v|]; [|discriminate].
  assert (Hgen : match validate v with
                 | inl l => inl (map (under name) l)
                 | inr a => inr (Some a)
                 end = inl errs -> errs <> []).
  { destruct (validate v) as [l|a] eqn:E; [|discriminate].
    intros H. injection H as <-.
    apply Hv in E. destruct l; [now elim E | discriminate]. }
  destruct v; try exact Hgen; try discriminate;
    destruct (validate _) as [l|a] eqn:E; try discriminate;
    intros H; injection H as <-; apply Hv in E;
    (destruct l; [now elim E | discriminate]).
Qed.

Lemma app_not_nil {A : Type} (l rest : list A) :
  l <> [] -> (l ++ rest)%list <> [].
Proof.
  destruct l; [intros H; now elim H | discriminate].
Qed.

(** Construction either succeeds with no line error at all, or raises a
    [ValidationError] that carries all the line errors, of which there is at
    least one. *)
Lemma init_spec (entries : dict) :
  (exists r, ReservationResponse_init entries = inr r
             /\ all_errors entries = [])
  \/ (ReservationResponse_init entries
      = inl (ValidationError (all_errors entries))
      /\ all_errors entries <> []).
Proof.
  unfold ReservationResponse_init, all_errors.
  destruct (required "is_reservation" validate_bool entries) eqn:E1;
    [right; split; [reflexivity|]; cbn [errors_of app];
     apply app_not_nil, (required_reports _ _ _ _ validate_bool_reports E1)|].
  destruct (optional "date" validate_str entries) eqn:E2;
    [right; split; [reflexivity|]; cbn [errors_of app];
     apply app_not_nil, (optional_reports _ _ _ _ validate_str_reports E2)|].
  destruct (optional "start_time" validate_str entries) eqn:E3;
    [right; split; [reflexivity|]; cbn [errors_of app];
     apply app_not_nil, (optional_reports _ _ _ _ validate_str_reports E3)|].
  destruct (optional "end_time" validate_str entries) eqn:E4;
    [right; split; [reflexivity|]; cbn [errors_of app];
     apply app_not_nil, (optional_reports _ _ _ _ validate_str_reports E4)|].
  destruct (optional "court" validate_str entries) eqn:E5;
    [right; split; [reflexivity|]; cbn [errors_of app];
     apply app_not_nil, (optional_reports _ _ _ _ validate_str_reports E5)|].
  destruct (optional "organizer" validate_str entries) eqn:E6;
    [right; split; [reflexivity|]; cbn [errors_of app];
     apply app_not_nil, (optional_reports _ _ _ _ validate_str_reports E6)|].
  destruct (optional "players" validate_list_str entries) eqn:E7;
    [right; split; [reflexivity|]; cbn [errors_of app];
     apply app_not_nil,
       (optional_reports _ _ _ _ validate_list_str_reports E7)|].
  destruct (optional "error" validate_str entries) eqn:E8;
    [right; split; [reflexivity|]; cbn [errors_of app];
     apply (optional_reports _ _ _ _ validate_str_reports E8)|].
  left. eexists. split; reflexivity.
Qed.

Lemma init_accepts (entries : dict) :
  all_errors entries = [] -> exists r, ReservationResponse_init entries = inr r.
Proof.
  intros H. destruct (init_spec entries) as [(r & Hr & _) | [_ Hne]].
  - now exists r.
  - now elim Hne.
Qed.

Lemma init_rejects (entries : dict) (err : line_error) :
  In err (all_errors entries) ->
  exists errors,
    ReservationResponse_init entries = inl (ValidationError errors)
    /\ In err errors.
Proof.
  intros H. destruct (init_spec entries) as [(r & _ & Hnil) | [Hi _]].
  - rewrite Hnil in H. now elim H.
  - now exists (all_errors entries).
Qed.

Lemma in_all_errors_str (name : string) (entries : dict) (err : line_error) :
  In name str_fields ->
  In err (errors_of (optional name validate_str entries)) ->
  In err (all_errors entries).
Proof.
  intros Hn He. unfold all_errors. repeat rewrite in_app_iff.
  cbn in Hn.
  destruct Hn as [<- | [<- | [<- | [<- | [<- | [<- | []]]]]]]; auto 12.
Qed.

Lemma in_all_errors_players (entries : dict) (err : line_error) :
  In err (errors_of (optional "players" validate_list_str entries)) ->
  In err (all_errors entries).
Proof.
  intros He. unfold all_errors. repeat rewrite in_app_iff. auto 12.
Qed.

(** The items that are not strings are the ones reported, each under its
    index. *)
Lemma validate_str_items_reports (k : nat) (items : list value) (i : nat)
  (x : value) :
  nth_error items i = Some x ->
  (forall s, x <> PyStr s) ->
  In (LineError [LocIndex (k + i)] invalid) (fst (validate_str_items k items)).
Proof.
  revert k i; induction items as [|y items IH]; intros k i Hn Hx.
  - now destruct i.
  - cbn [validate_str_items].
    destruct (validate_str_items (S k) items) as [errs strs] eqn:E.
    destruct i as [|i].
    + injection Hn as ->. rewrite Nat.add_0_r.
      destruct x; try (now left). now elim (Hx s).
    + cbn [nth_error] in Hn.
      specialize (IH (S k) i Hn Hx). rewrite E in IH. cbn [fst] in IH.
      replace (k + S i)%nat with (S k + i)%nat by lia.
      destruct y; cbn [fst]; try (now right); exact IH.
Qed.

Lemma validate_str_items_clean (k : nat) (items : list value) :
  (forall x, In x items -> exists s, x = PyStr s) ->
  fst (validate_str_items k items) = [].
Proof.
  revert k; induction items as [|y items IH]; intros k H; [reflexivity|].
  cbn [validate_str_items].
  specialize (IH (S k) (fun x Hx => H x (or_intror Hx))).
  destruct (validate_str_items (S k) items) as [errs strs].
  cbn [fst] in IH. subst errs.
  destruct (H y (or_introl eq_refl)) as [s ->]. reflexivity.
Qed.

Lemma validate_str_items_strings (k : nat) (items : list value) :
  fst (validate_str_items k items) = [] ->
  forall x, In x items -> exists s, x = PyStr s.
Proof.
  revert k; induction items as [|y items IH]; intros k H x Hx; [now elim Hx|].
  cbn [validate_str_items] in H.
  destruct (validate_str_items (S k) items) as [errs strs] eqn:E.
  assert (Hy : (exists s, y = PyStr s) /\ errs = []).
  { destruct y; cbn [fst] in H; try discriminate. split; [now exists s | exact H]. }
  destruct Hy as [Hy ->].
  destruct Hx as [<- | Hx]; [exact Hy|].
  apply (IH (S k)); [now rewrite E | exact Hx].
Qed.

Lemma optional_str_ok (name : string) (entries : dict) :
  str_field_ok name entries <->
  exists o, optional name validate_str entries = inr o.
Proof.
  unfold str_field_ok, optional.
  destruct (dict_get name entries) as [v|]; [|split; [now eexists | trivial]].
  destruct v; cbn;
    (split; [intros H; try (now elim H); now eexists
            | intros [o Ho]; try discriminate; exact I]).
Qed.

Lemma optional_players_ok (entries : dict) :
  players_ok entries <->
  exists o, optional "players" validate_list_str entries = inr o.
Proof.
  unfold players_ok, optional.
  destruct (dict_get "players" entries) as [v|];
    [|split; [now eexists | trivial]].
  destruct v; cbn;
    try (split; [intros H; try (now elim H); now eexists
                | intros [o Ho]; try discriminate; exact I]).
  split.
  - intros H. apply (validate_str_items_clean 0) in H.
    destruct (validate_str_items 0 items) as [errs strs].
    cbn [fst] in H. subst errs. now eexists.
  - intros [o H].
    apply (validate_str_items_strings 0).
    destruct (validate_str_items 0 items) as [[|e errs] strs];
      [reflexivity | discriminate].
Qed.

(** X2. Whenever a model serializes, validating the serialized document
    again gives the same model back: the model is accepted in its serialized
    form with no field changed. *)
Theorem dump_then_validate (r : ReservationResponse) (doc : value) :
  model_dump_json r = inr doc ->
  ReservationResponse_unpack doc = inr r.
Proof.
  unfold model_dump_json.
  destruct (serializable r); [|discriminate].
  intros H. injection H as <-.
  destruct r as [b d st et c o ps e].
  unfold model_dump, ReservationResponse_unpack, ReservationResponse_init.
  cbn [is_reservation date start_time end_time court organizer players error].
  assert (Hps : optional "players" validate_list_str
                  [ ("is_reservation", PyBool b); ("date", dump_opt_str d);
                    ("start_time", dump_opt_str st);
                    ("end_time", dump_opt_str et); ("court", dump_opt_str c);
                    ("organizer", dump_opt_str o);
                    ("players", dump_opt_list_str ps);
                    ("error", dump_opt_str e) ] = inr ps).
  { unfold optional. cbn [dict_get String.eqb Ascii.eqb Bool.eqb].
    destruct ps as [l|]; [|reflexivity].
    cbn [dump_opt_list_str nullable validate_list_str].
    now rewrite validate_str_items_map. }
  rewrite Hps.
  destruct d, st, et, c, o, e; reflexivity.
Qed.

(** A model with two players and no date. *)
Lemma dump_then_validate_witness :
  ReservationResponse_unpack
    (PyDict [ ("is_reservation", PyBool true); ("date", PyNone);
              ("start_time", PyNone); ("end_time", PyNone);
              ("court", PyStr "North"); ("organizer", PyNone);
              ("players", PyList [PyStr "John Smith"; PyStr "Jane Doe"]);
              ("error", PyNone) ])
  = inr {| is_reservation := true; date := None; start_time := None;
           end_time := None; court := Some "North"; organizer := None;
           players := Some ["John Smith"; "Jane Doe"]; error := None |}.
Proof.
  apply (dump_then_validate
           {| is_reservation := true; date := None; start_time := None;
              end_time := None; court := Some "North"; organizer := None;
              players := Some ["John Smith"; "Jane Doe"]; error := None |}).
  reflexivity.
Defined.

(** X3. Validation succeeds exactly when [is_reservation] is present with a
    value that converts to a boolean, each of the six text fields is absent,
    [null] or a string, and [players] is absent, [null] or a list whose
    items are all strings. *)
Theorem validation_accepts_iff (entries : dict) :
  (exists r, ReservationResponse_init entries = inr r)
  <-> (exists v b, dict_get "is_reservation" entries = Some v
                   /\ lax_bool v = Some b)
      /\ (forall name, In name str_fields -> str_field_ok name entries)
      /\ players_ok entries.
Proof.
  split.
  - intros [r Hr]. apply init_fields in Hr.
    destruct Hr as (H1 & H2 & H3 & H4 & H5 & H6 & H7 & H8).
    split; [|split].
    + unfold required, validate_bool in H1.
      destruct (dict_get "is_reservation" entries) as [v|]; [|discriminate].
      destruct (lax_bool v) as [b|] eqn:Hb; [|discriminate].
      now exists v, b.
    + intros name Hn. apply optional_str_ok. cbn in Hn.
      destruct Hn as [<- | [<- | [<- | [<- | [<- | [<- | []]]]]]];
        eexists; eassumption.
    + apply optional_players_ok. eexists; eassumption.
  - intros ((v & b & Hv & Hb) & Hs & Hp).
    apply init_accepts. unfold all_errors.
    assert (F1 : required "is_reservation" validate_bool entries = inr b)
      by (unfold required, validate_bool; now rewrite Hv, Hb).
    destruct (proj1 (optional_str_ok "date" entries)) as [o2 F2];
      [apply Hs; cbn; tauto|].
    destruct (proj1 (optional_str_ok "start_time" entries)) as [o3 F3];
      [apply Hs; cbn; tauto|].
    destruct (proj1 (optional_str_ok "end_time" entries)) as [o4 F4];
      [apply Hs; cbn; tauto|].
    destruct (proj1 (optional_str_ok "court" entries)) as [o5 F5];
      [apply Hs; cbn; tauto|].
    destruct (proj1 (optional_str_ok "organizer" entries)) as [o6 F6];
      [apply Hs; cbn; tauto|].
    destruct (proj1 (optional_str_ok "error" entries)) as [o8 F8];
      [apply Hs; cbn; tauto|].
    destruct (proj1 (optional_players_ok entries) Hp) as [o7 F7].
    now rewrite F1, F2, F3, F4, F5, F6, F7, F8.
Qed.

(** The smallest accepted reply, and a reply whose players hold a number. *)
Lemma validation_accepts_iff_witness :
  (exists r, ReservationResponse_init [("is_reservation", PyBool false)] = inr r)
  /\ ~ (exists r,
          ReservationResponse_init
            [ ("is_reservation", PyBool true);
              ("players", PyList [PyStr "John Smith"; PyInt 7]) ] = inr r).
Proof.
  split.
  - apply (proj2 (validation_accepts_iff [("is_reservation", PyBool false)])).
    split; [now exists (PyBool false), false|].
    split; [|exact I].
    intros name H. cbn in H.
    repeat (destruct H as [<- | H]; [exact I|]). now elim H.
  - intros H.
    apply (proj1 (validation_accepts_iff _)) in H.
    destruct H as (_ & _ & Hp).
    destruct (Hp (PyInt 7)) as [s Hs]; [right; now left | discriminate Hs].
Defined.

(** X4. [null] under an optional key is the same as no key: an object with a
    boolean [is_reservation] whose seven optional keys are each absent or
    [null] builds the model with that boolean and every optional field
    unset. *)
Theorem null_is_absent (entries : dict) (b : bool) :
  dict_get "is_reservation" entries = Some (PyBool b) ->
  (forall name, In name ("players" :: str_fields) ->
                dict_get name entries = None
                \/ dict_get name entries = Some PyNone) ->
  ReservationResponse_init entries
  = inr {| is_reservation := b; date := None; start_time := None;
           end_time := None; court := None; organizer := None;
           players := None; error := None |}.
Proof.
  intros Hb H.
  assert (Hs : forall name, In name str_fields ->
                 optional name validate_str entries = inr None).
  { intros name Hn. unfold optional.
    destruct (H name (or_intror Hn)) as [-> | ->]; reflexivity. }
  assert (Hp : optional "players" validate_list_str entries = inr None).
  { unfold optional.
    destruct (H "players" (or_introl eq_refl)) as [-> | ->]; reflexivity. }
  unfold ReservationResponse_init.
  rewrite Hp, !Hs by (cbn; tauto).
  unfold required. now rewrite Hb.
Qed.

Lemma null_is_absent_witness :
  ReservationResponse_init
    [ ("is_reservation", PyBool false); ("date", PyNone); ("players", PyNone) ]
  = inr {| is_reservation := false; date := None; start_time := None;
           end_time := None; court := None; organizer := None;
           players := None; error := None |}.
Proof.
  apply null_is_absent; [reflexivity|].
  intros name H. cbn in H.
  destruct H as [<- | [<- | H]]; [now right | now right |].
  repeat (destruct H as [<- | H]; [now left|]). now elim H.
Defined.

(** X5. A rejected value is reported under its own field, whatever else is
    wrong with the object: a text field that holds something other than
    [null] or a string, a [players] that is not a list, and each item of
    [players] that is not a string, the last under the field and the index of
    the item. *)
Theorem errors_name_the_field (entries : dict) :
  (forall name v,
     In name str_fields ->
     dict_get name entries = Some v ->
     v <> PyNone -> (forall s, v <> PyStr s) ->
     exists errors,
       ReservationResponse_init entries = inl (ValidationError errors)
       /\ In (LineError [LocField name] invalid) errors)
  /\ (forall v,
        dict_get "players" entries = Some v ->
        v <> PyNone -> (forall items, v <> PyList items) ->
        exists errors,
          ReservationResponse_init entries = inl (ValidationError errors)
          /\ In (LineError [LocField "players"] invalid) errors)
  /\ (forall items i x,
        dict_get "players" entries = Some (PyList items) ->
        nth_error items i = Some x ->
        (forall s, x <> PyStr s) ->
        exists errors,
          ReservationResponse_init entries = inl (ValidationError errors)
          /\ In (LineError [LocField "players"; LocIndex i] invalid) errors).
Proof.
  split; [|split].
  - intros name v Hn Hv Hnone Hstr.
    apply init_rejects, (in_all_errors_str name); [exact Hn|].
    unfold optional. rewrite Hv.
    destruct v; cbn; try (now left).
    + now elim Hnone.
    + now elim (Hstr s).
  - intros v Hv Hnone Hlist.
    apply init_rejects, in_all_errors_players.
    unfold optional. rewrite Hv.
    destruct v; cbn; try (now left).
    + now elim Hnone.
    + now elim (Hlist items).
  - intros items i x Hv Hi Hx.
    apply init_rejects, in_all_errors_players.
    unfold optional. rewrite Hv. cbn [nullable validate_list_str].
    assert (Hin := validate_str_items_reports 0 items i x Hi Hx).
    destruct (validate_str_items 0 items) as [[|e errs] strs];
      [now elim Hin|].
    cbn [fst] in Hin. cbn [errors_of].
    apply (in_map (under "players")) in Hin. exact Hin.
Qed.

(** A reply with a number for the date and a number among the players: both
    are reported. *)
Lemma errors_name_the_field_witness :
  exists errors,
    ReservationResponse_init
      [ ("is_reservation", PyBool true); ("date", PyInt 20241223);
        ("players", PyList [PyStr "John Smith"; PyInt 7]) ]
    = inl (ValidationError errors)
    /\ In (LineError [LocField "date"] invalid) errors
    /\ In (LineError [LocField "players"; LocIndex 1] invalid) errors.
Proof.
  destruct (errors_name_the_field
              [ ("is_reservation", PyBool true); ("date", PyInt 20241223);
                ("players", PyList [PyStr "John Smith"; PyInt 7]) ])
    as (Hs & _ & Hp).
  destruct (Hs "date" (PyInt 20241223)) as (errors & He & Hd);
    [now left | reflexivity | discriminate | discriminate |].
  destruct (Hp [PyStr "John Smith"; PyInt 7] 1%nat (PyInt 7))
    as (errors' & He' & Hp'); [reflexivity | reflexivity | discriminate |].
  exists errors. split; [exact He|]. split; [exact Hd|].
  rewrite He in He'. injection He' as <-. exact Hp'.
Defined.

(** ** More on the request handler *)

Lemma parse_email_reaches (w : World) (req : HttpRequest)
  (email_text email_subject : value) :
  reaches_model w req email_text email_subject ->
  parse_email w req
  = call_openai w (environ_get w "AZURE_OPENAI_ENDPOINT")
                (environ_get w "AZURE_OPENAI_API_KEY")
                (deployment_name w) email_text email_subject.
Proof.
  intros (Hc & Hf & Ht & Hq).
  rewrite (parse_email_fields w req _ _ Hc Hf), Ht, Hq. reflexivity.
Qed.

Lemma truthy_false_iff (v : value) :
  truthy v = false
  <-> v = PyNone \/ v = PyBool false \/ v = PyInt 0
      \/ (exists sign, v = PyFloat (S754_zero sign))
      \/ v = PyStr "" \/ v = PyList [] \/ v = PyDict [].
Proof.
  split.
  - destruct v as [|b|n|f|s|items|entries]; cbn.
    + now left.
    + intros ->. right; now left.
    + rewrite negb_false_iff, Z.eqb_eq. intros ->. right; right; now left.
    + destruct f; try discriminate. intros _.
      right; right; right; left. now eexists.
    + rewrite negb_false_iff, String.eqb_eq. intros ->.
      right; right; right; right; now left.
    + destruct items; [|discriminate]. intros _.
      right; right; right; right; right; now left.
    + destruct entries; [|discriminate]. intros _.
      right; right; right; right; right; now right.
  - intros [-> | [-> | [-> | [[sign ->] | [-> | [-> | ->]]]]]]; reflexivity.
Qed.

(** X6. With the configuration present, a request whose body cannot be
    decoded ([get_json] raises [ValueError]) is answered 400 with
    [{"error": "Invalid JSON in request body"}]; the text of the exception
    is not passed on, and the model is not called. *)
Theorem malformed_body_is_400 (w : World) (req : HttpRequest) (msg : string) :
  config_present w ->
  get_json req = inl msg ->
  parse_email w req
  = (Return {| body := PyDict [("error", PyStr "Invalid JSON in request body")];
               status_code := 400;
               mimetype := "application/json" |},
     []).
Proof.
  intros [He Hk] Hj. unfold parse_email. now rewrite He, Hk, Hj.
Qed.

Lemma malformed_body_is_400_witness :
  parse_email (mock_world test_environ "" []) (MockHttpRequest None)
  = (Return {| body := PyDict [("error", PyStr "Invalid JSON in request body")];
               status_code := 400;
               mimetype := "application/json" |},
     []).
Proof.
  apply (malformed_body_is_400 _ _ "No JSON body").
  - split; reflexivity.
  - reflexivity.
Defined.

(** X7. With the configuration present, a body that decodes to JSON that is
    not an object (an array, a string, a number, [null]) is not answered: the
    lookup of [email_text] raises an [AttributeError] that no handler
    catches, before any call to the model. *)
Theorem non_object_body_raises (w : World) (req : HttpRequest) (req_body : value) :
  config_present w ->
  get_json req = inr req_body ->
  (forall entries, req_body <> PyDict entries) ->
  parse_email w req = (Raise (AttributeError req_body "get"), []).
Proof.
  intros [He Hk] Hj Hb. unfold parse_email. rewrite He, Hk, Hj. cbn [negb orb].
  destruct req_body; try reflexivity. now elim (Hb entries).
Qed.

Lemma non_object_body_raises_witness :
  parse_email (mock_world test_environ "" [])
              (MockHttpRequest (Some (PyList [PyStr "Rally Club"])))
  = (Raise (AttributeError (PyList [PyStr "Rally Club"]) "get"), []).
Proof.
  apply non_object_body_raises.
  - split; reflexivity.
  - reflexivity.
  - discriminate.
Defined.

(** What comes out of the outer [try] is a well-formed 200 or a 500, never
    a 400. *)
Lemma call_openai_response (w : World) (endpoint key : option string)
  (deployment : string) (email_text email_subject : value)
  (r : HttpResponse) :
  fst (call_openai w endpoint key deployment email_text email_subject)
  = Return r ->
  well_formed_response r /\ status_code r <> 400.
Proof.
  assert (Hfail : forall e, ai_failed w e = Return r ->
                            well_formed_response r /\ status_code r <> 400).
  { intros e H. injection H as <-. split; [|discriminate].
    split; [reflexivity|]. right. split; [now right | now eexists]. }
  assert (Hparse : forall e, parse_failed w e = Return r ->
                             well_formed_response r /\ status_code r <> 400).
  { intros e H. injection H as <-. split; [|discriminate].
    split; [reflexivity|]. left. split; [reflexivity|].
    eexists. exists false. split; reflexivity. }
  unfold call_openai.
  destruct (AzureOpenAI w _); [apply Hfail|].
  destruct (chat_completions_create w _ _) as [e|response]; [apply Hfail|].
  destruct (choices response) as [|choice rest]; [apply Hfail|].
  cbn [fst]. unfold validate_response, inner_try.
  destruct (parse_and_validate w (message_content choice)) as [e|m].
  - destruct e; first [apply Hparse | apply Hfail].
  - unfold model_dump_json.
    destruct (serializable m); [|apply Hfail].
    intros H. injection H as <-. split; [|discriminate].
    split; [reflexivity|]. left. split; [reflexivity|].
    eexists. exists (is_reservation m). split; reflexivity.
Qed.

(** X8. The field check rejects every falsy [email_text], not only the empty
    string. With the configuration present and an object for a body, the
    answer is the 400 "email_text is required" exactly when [email_text]
    (the empty string when the key is absent) is [null], [false], zero, the
    empty string, an empty array or an empty object, whatever
    [email_subject] holds. *)
Theorem falsy_email_text_is_400 (w : World) (req : HttpRequest)
  (email_text email_subject : value) :
  config_present w ->
  request_fields req email_text email_subject ->
  parse_email w req
  = (Return {| body := PyDict [("error", PyStr "email_text is required")];
               status_code := 400;
               mimetype := "application/json" |},
     [])
  <-> email_text = PyNone \/ email_text = PyBool false \/ email_text = PyInt 0
      \/ (exists sign, email_text = PyFloat (S754_zero sign))
      \/ email_text = PyStr "" \/ email_text = PyList []
      \/ email_text = PyDict [].
Proof.
  intros Hc Hf. rewrite <- truthy_false_iff.
  rewrite (parse_email_fields w req _ _ Hc Hf).
  destruct (truthy email_text); cbn [negb]; [|split; reflexivity].
  split; [|discriminate].
  destruct (quick_check email_text email_subject) as [e|[|]];
    try discriminate.
  intros H.
  destruct (call_openai_response w (environ_get w "AZURE_OPENAI_ENDPOINT")
              (environ_get w "AZURE_OPENAI_API_KEY") (deployment_name w)
              email_text email_subject
              {| body := PyDict [("error", PyStr "email_text is required")];
                 status_code := 400;
                 mimetype := "application/json" |}) as [_ Hne].
  - now rewrite H.
  - now elim Hne.
Qed.

Lemma falsy_email_text_is_400_witness :
  parse_email (mock_world test_environ "" [])
    (MockHttpRequest
       (Some (PyDict [ ("email_text", PyList []);
                       ("email_subject", PyStr "Rally Club Reservation") ])))
  = (Return {| body := PyDict [("error", PyStr "email_text is required")];
               status_code := 400;
               mimetype := "application/json" |},
     []).
Proof.
  apply (falsy_email_text_is_400 (mock_world test_environ "" [])
           (MockHttpRequest
              (Some (PyDict [ ("email_text", PyList []);
                              ("email_subject",
                               PyStr "Rally Club Reservation") ])))
           (PyList []) (PyStr "Rally Club Reservation")).
  - split; reflexivity.
  - eexists. split; [reflexivity | split; reflexivity].
  - right; right; right; right; right; now left.
Defined.

(** X9. Once the handler has entered the outer [try], a failure of the
    model client is answered 500 with "AI processing failed: " followed by
    the text of the exception, whatever its class. When the constructor of
    the client raises, the completion is never requested; when the request
    for a completion raises, it was made once. *)
Theorem upstream_failure_is_500 (w : World) (req : HttpRequest)
  (email_text email_subject : value) (e : exn) :
  reaches_model w req email_text email_subject ->
  (AzureOpenAI w (env_config w) = Some e ->
   parse_email w req
   = (Return {| body := PyDict
                  [("error", PyStr ("AI processing failed: " ++ str_exn w e))];
                status_code := 500;
                mimetype := "application/json" |},
      [NewClient (env_config w)]))
  /\ (AzureOpenAI w (env_config w) = None ->
      chat_completions_create w (env_config w)
        (chat_request w (deployment_name w) email_text email_subject)
      = inl e ->
      parse_email w req
      = (Return {| body := PyDict
                     [("error", PyStr ("AI processing failed: " ++ str_exn w e))];
                   status_code := 500;
                   mimetype := "application/json" |},
         [ NewClient (env_config w);
           Create (env_config w)
                  (chat_request w (deployment_name w)
                                email_text email_subject) ])).
Proof.
  intros Hr. rewrite (parse_email_reaches w req _ _ Hr).
  unfold call_openai, env_config. split.
  - intros ->. reflexivity.
  - intros -> ->. reflexivity.
Qed.

(** The scenario of the test [test_openai_error], on a request that passes
    the quick check. *)
Lemma upstream_failure_is_500_witness :
  parse_email
    (stub_world test_environ None (inl (Exception "API error")) [])
    rally_request
  = (Return {| body := PyDict
                 [("error", PyStr "AI processing failed: API error")];
               status_code := 500;
               mimetype := "application/json" |},
     [ NewClient (client_config (Some "https://test.openai.azure.com")
                                (Some "test-key"));
       Create (client_config (Some "https://test.openai.azure.com")
                             (Some "test-key"))
              (chat_request
                 (stub_world test_environ None (inl (Exception "API error")) [])
                 "gpt-4o-mini"
                 (PyStr "Reservation for John Smith on Dec 23")
                 (PyStr "Rally Club Reservation")) ]).
Proof.
  apply (proj2 (upstream_failure_is_500
                  (stub_world test_environ None
                              (inl (Exception "API error")) [])
                  rally_request
                  (PyStr "Reservation for John Smith on Dec 23")
                  (PyStr "Rally Club Reservation")
                  (Exception "API error")
                  (conj (conj eq_refl eq_refl)
                     (conj (ex_intro _ _ (conj eq_refl (conj eq_refl eq_refl)))
                        (conj eq_refl eq_refl))))).
  - reflexivity.
  - reflexivity.
Defined.

(** X10. A completion the handler cannot read is answered 500: one with no
    choice at all (reading the first choice raises [IndexError]) and one
    whose first choice has no content ([json.loads] of [None] raises
    [TypeError]). Only the first choice is read. *)
Theorem unusable_completion_is_500 (w : World) (req : HttpRequest)
  (email_text email_subject : value) (response : ChatCompletion) :
  reaches_model w req email_text email_subject ->
  AzureOpenAI w (env_config w) = None ->
  chat_completions_create w (env_config w)
    (chat_request w (deployment_name w) email_text email_subject)
  = inr response ->
  (choices response = [] ->
   fst (parse_email w req)
   = Return {| body := PyDict
                 [("error", PyStr ("AI processing failed: "
                                   ++ str_exn w IndexError))];
               status_code := 500;
               mimetype := "application/json" |})
  /\ (forall choice rest,
        choices response = choice :: rest ->
        fst (parse_email w req) = validate_response w (message_content choice))
  /\ (forall choice rest,
        choices response = choice :: rest ->
        message_content choice = None ->
        fst (parse_email w req)
        = Return {| body := PyDict
                      [("error", PyStr ("AI processing failed: "
                                        ++ str_exn w (TypeError not_text)))];
                    status_code := 500;
                    mimetype := "application/json" |}).
Proof.
  intros Hr Ha Hc. rewrite (parse_email_reaches w req _ _ Hr).
  unfold call_openai. fold (env_config w). rewrite Ha, Hc.
  split; [|split].
  - intros ->. reflexivity.
  - intros choice rest ->. reflexivity.
  - intros choice rest -> Hm. cbn [fst].
    unfold validate_response, inner_try, parse_and_validate, loads_content.
    now rewrite Hm.
Qed.

Lemma unusable_completion_is_500_witness :
  fst (parse_email
         (stub_world test_environ None (inr {| choices := [] |}) [])
         rally_request)
  = Return {| body := PyDict
                [("error", PyStr "AI processing failed: list index out of range")];
              status_code := 500;
              mimetype := "application/json" |}.
Proof.
  apply (proj1 (unusable_completion_is_500
                  (stub_world test_environ None (inr {| choices := [] |}) [])
                  rally_request
                  (PyStr "Reservation for John Smith on Dec 23")
                  (PyStr "Rally Club Reservation")
                  {| choices := [] |}
                  (conj (conj eq_refl eq_refl)
                     (conj (ex_intro _ _ (conj eq_refl (conj eq_refl eq_refl)))
                        (conj eq_refl eq_refl)))
                  eq_refl eq_refl)).
  reflexivity.
Defined.

Lemma init_failure (entries : dict) (e : exn) :
  ReservationResponse_init entries = inl e ->
  exists errors, e = ValidationError errors /\ errors <> [].
Proof.
  intros H. destruct (init_spec entries) as [(r & Hr & _) | [Hi Hne]].
  - rewrite Hr in H. discriminate.
  - rewrite Hi in H. injection H as <-. now eexists.
Qed.

(** X11. When the reply decodes to an object that fails validation, the
    answer is 200, not 500: [is_reservation] false and an [error] that
    starts with "Failed to parse AI response: " and goes on with the text of
    the [ValidationError], which holds at least one line error. *)
Theorem invalid_object_reply_is_not_fatal (w : World) (req : HttpRequest)
  (text : string) (reply : dict) (e : exn) :
  model_replies w req (Some text) ->
  json_loads w text = inr (PyDict reply) ->
  ReservationResponse_init reply = inl e ->
  fst (parse_email w req)
  = Return {| body := PyDict
                [ ("is_reservation", PyBool false);
                  ("error", PyStr ("Failed to parse AI response: "
                                   ++ str_exn w e)) ];
              status_code := 200;
              mimetype := "application/json" |}
  /\ exists errors, e = ValidationError errors /\ errors <> [].
Proof.
  intros Hr Hl Hi.
  destruct (init_failure reply e Hi) as (errors & -> & Hne).
  split; [|now exists errors].
  destruct (parse_email_reply w req _ Hr) as (trace & -> & _).
  unfold validate_response, inner_try, parse_and_validate, loads_content.
  rewrite Hl. cbn [ReservationResponse_unpack]. now rewrite Hi.
Qed.

Lemma invalid_object_reply_is_not_fatal_witness :
  fst (parse_email
         (mock_world test_environ incomplete_reply_text
                     [(incomplete_reply_text, PyDict incomplete_reply)])
         rally_request)
  = Return {| body := PyDict
                [ ("is_reservation", PyBool false);
                  ("error",
                   PyStr "Failed to parse AI response: validation error for ReservationResponse") ];
              status_code := 200;
              mimetype := "application/json" |}.
Proof.
  apply (proj1 (invalid_object_reply_is_not_fatal
                  (mock_world test_environ incomplete_reply_text
                              [(incomplete_reply_text, PyDict incomplete_reply)])
                  rally_request incomplete_reply_text incomplete_reply
                  (ValidationError
                     [LineError [LocField "is_reservation"] missing])
                  (model_replies_mock _ _) eq_refl eq_refl)).
Defined.

(** Either the handler enters the outer [try], or it makes no call and its
    answer, if it gives one, is one of the four early answers. *)
Lemma parse_email_cases (w : World) (req : HttpRequest) :
  (exists email_text email_subject,
     reaches_model w req email_text email_subject)
  \/ (snd (parse_email w req) = []
      /\ forall r, fst (parse_email w req) = Return r ->
                   In r early_responses).
Proof.
  unfold parse_email.
  destruct (configured (environ_get w "AZURE_OPENAI_ENDPOINT")) eqn:He;
    [|right; split; [reflexivity|];
      intros r H; injection H as <-; now left].
  destruct (configured (environ_get w "AZURE_OPENAI_API_KEY")) eqn:Hk;
    [|right; split; [reflexivity|];
      intros r H; injection H as <-; now left].
  cbn [negb orb].
  destruct (get_json req) as [msg|req_body] eqn:Hj;
    [right; split; [reflexivity|];
     intros r H; injection H as <-; right; now left|].
  destruct (py_get req_body "email_text" (PyStr "")) as [e|email_text] eqn:Ht;
    [right; split; [reflexivity | discriminate]|].
  destruct (py_get req_body "email_subject" (PyStr ""))
    as [e|email_subject] eqn:Hs;
    [right; split; [reflexivity | discriminate]|].
  destruct (truthy email_text) eqn:Hv; cbn [negb];
    [|right; split; [reflexivity|];
      intros r H; injection H as <-; right; right; now left].
  destruct (quick_check email_text email_subject) as [e|[|]] eqn:Hq.
  - right; split; [reflexivity | discriminate].
  - right; split; [reflexivity|].
    intros r H; injection H as <-. right; right; right; now left.
  - left. exists email_text, email_subject.
    split; [now split|]. split; [|now split].
    destruct req_body; try discriminate Ht. now exists entries.
Qed.

Lemma early_responses_well_formed (r : HttpResponse) :
  In r early_responses -> well_formed_response r.
Proof.
  intros [<- | [<- | [<- | [<- | []]]]]; (split; [reflexivity|]).
  - right. split; [now right | now eexists].
  - right. split; [now left | now eexists].
  - right. split; [now left | now eexists].
  - left. split; [reflexivity|]. eexists. exists false. split; reflexivity.
Qed.

(** X12. Every response of [parse_email] has the JSON media type and one of
    two shapes: status 200 with an object that has a boolean
    [is_reservation], or status 400 or 500 with an object that has the single
    string field [error]. No other status is ever returned. *)
Theorem responses_are_well_formed (w : World) (req : HttpRequest)
  (r : HttpResponse) :
  fst (parse_email w req) = Return r ->
  well_formed_response r.
Proof.
  intros H.
  destruct (parse_email_cases w req) as [(t & s & Hr) | [_ He]].
  - rewrite (parse_email_reaches w req t s Hr) in H.
    now apply call_openai_response in H.
  - now apply early_responses_well_formed, He.
Qed.

Lemma responses_are_well_formed_witness :
  well_formed_response
    {| body := PyDict
         [ ("is_reservation", PyBool false);
           ("error",
            PyStr "Failed to parse AI response: Expecting value: line 1 column 1 (char 0)") ];
       status_code := 200;
       mimetype := "application/json" |}.
Proof.
  apply (responses_are_well_formed
           (mock_world test_environ "not valid json" []) rally_request).
  reflexivity.
Defined.

Lemma call_openai_calls (w : World) (endpoint key : option string)
  (deployment : string) (email_text email_subject : value) :
  let cfg := client_config endpoint key in
  snd (call_openai w endpoint key deployment email_text email_subject)
  = [NewClient cfg]
  \/ snd (call_openai w endpoint key deployment email_text email_subject)
     = [NewClient cfg;
        Create cfg (chat_request w deployment email_text email_subject)].
Proof.
  cbv zeta. unfold call_openai.
  destruct (AzureOpenAI w _); [now left|].
  destruct (chat_completions_create w _ _) as [e|response]; [now right|].
  destruct (choices response); now right.
Qed.

(** X13. One request makes at most one call to the model, and never
    retries: the calls of [parse_email] are none at all, or the construction
    of one client, or that construction followed by one request for a
    completion, built from the fields of the request body. *)
Theorem model_is_called_at_most_once (w : World) (req : HttpRequest) :
  snd (parse_email w req) = []
  \/ snd (parse_email w req) = [NewClient (env_config w)]
  \/ exists email_text email_subject,
       request_fields req email_text email_subject
       /\ snd (parse_email w req)
          = [ NewClient (env_config w);
              Create (env_config w)
                     (chat_request w (deployment_name w)
                                   email_text email_subject) ].
Proof.
  destruct (parse_email_cases w req) as [(t & s & Hr) | [H _]]; [|now left].
  rewrite (parse_email_reaches w req t s Hr). right.
  destruct (call_openai_calls w (environ_get w "AZURE_OPENAI_ENDPOINT")
              (environ_get w "AZURE_OPENAI_API_KEY") (deployment_name w) t s)
    as [H | H]; rewrite H.
  - now left.
  - right. exists t, s. split; [apply Hr | reflexivity].
Qed.

(** X14. Whenever a completion is requested, the configuration is present
    and the client holds the endpoint and the key of the environment with API
    version 2024-02-01; the request names the deployment of the environment,
    or gpt-4o-mini when none is set, asks for temperature 0, at most 500
    tokens and a JSON object, and sends the system prompt followed by one
    user message. *)
Theorem completion_request_is_fixed (w : World) (req : HttpRequest)
  (cfg : ClientConfig) (request : ChatRequest) :
  In (Create cfg request) (snd (parse_email w req)) ->
  config_present w
  /\ azure_endpoint cfg = environ_get w "AZURE_OPENAI_ENDPOINT"
  /\ api_key cfg = environ_get w "AZURE_OPENAI_API_KEY"
  /\ api_version cfg = "2024-02-01"
  /\ (environ_get w "AZURE_OPENAI_DEPLOYMENT_NAME" = Some (model request)
      \/ (environ_get w "AZURE_OPENAI_DEPLOYMENT_NAME" = None
          /\ model request = "gpt-4o-mini"))
  /\ temperature request = 0
  /\ max_tokens request = 500
  /\ response_format request = "json_object"
  /\ exists text,
       messages request
       = [ {| role := "system"; content := SYSTEM_PROMPT |};
           {| role := "user"; content := text |} ].
Proof.
  intros H.
  destruct (parse_email_cases w req) as [(t & s & Hr) | [Hnil _]];
    [|rewrite Hnil in H; now elim H].
  rewrite (parse_email_reaches w req t s Hr) in H.
  destruct (call_openai_calls w (environ_get w "AZURE_OPENAI_ENDPOINT")
              (environ_get w "AZURE_OPENAI_API_KEY") (deployment_name w) t s)
    as [Hc | Hc]; rewrite Hc in H.
  - destruct H as [H | []]. discriminate H.
  - destruct H as [H | [H | []]]; [discriminate H|].
    injection H as <- <-.
    split; [apply Hr|]. repeat (split; [reflexivity|]).
    split.
    + cbn [model chat_request]. unfold deployment_name.
      destruct (environ_get w "AZURE_OPENAI_DEPLOYMENT_NAME");
        [now left | now right].
    + repeat (split; [reflexivity|]). now eexists.
Qed.

Lemma completion_request_is_fixed_witness :
  model
    (chat_request (mock_world test_environ "not valid json" []) "gpt-4o-mini"
       (PyStr "Reservation for John Smith on Dec 23")
       (PyStr "Rally Club Reservation"))
  = "gpt-4o-mini".
Proof.
  destruct (completion_request_is_fixed
              (mock_world test_environ "not valid json" []) rally_request
              (client_config (Some "https://test.openai.azure.com")
                             (Some "test-key"))
              (chat_request (mock_world test_environ "not valid json" [])
                 "gpt-4o-mini"
                 (PyStr "Reservation for John Smith on Dec 23")
                 (PyStr "Rally Club Reservation")))
    as (_ & _ & _ & _ & [H | [_ H]] & _).
  - right; left; reflexivity.
  - discriminate H.
  - exact H.
Defined.

(** X15. The handler never reports a reservation on its own: a body with
    [is_reservation] true is returned only with status 200, after the model
    was reached, and only when the reply of the model decoded to an object
    whose own [is_reservation] converts to true. *)
Theorem no_reservation_without_model (w : World) (req : HttpRequest)
  (r : HttpResponse) (doc : dict) :
  fst (parse_email w req) = Return r ->
  body r = PyDict doc ->
  dict_get "is_reservation" doc = Some (PyBool true) ->
  status_code r = 200
  /\ exists text reply v,
       model_replies w req (Some text)
       /\ json_loads w text = inr (PyDict reply)
       /\ dict_get "is_reservation" reply = Some v
       /\ lax_bool v = Some true.
Proof.
  intros H Hb Hd.
  destruct (parse_email_cases w req) as [(t & s & Hr) | [_ He]].
  - rewrite (parse_email_reaches w req t s Hr) in H.
    destruct Hr as (Hc & Hf & Ht & Hq).
    unfold call_openai in H. fold (env_config w) in H.
    destruct (AzureOpenAI w (env_config w)) eqn:Ha;
      [injection H as <-; injection Hb as <-; discriminate Hd|].
    destruct (chat_completions_create w (env_config w) _)
      as [e|response] eqn:Hcr;
      [injection H as <-; injection Hb as <-; discriminate Hd|].
    destruct (choices response) as [|choice rest] eqn:Hch;
      [injection H as <-; injection Hb as <-; discriminate Hd|].
    cbn [fst] in H.
    unfold validate_response, inner_try, parse_and_validate, loads_content in H.
    destruct (message_content choice) as [text|] eqn:Hm;
      [|injection H as <-; injection Hb as <-; discriminate Hd].
    destruct (json_loads w text) as [e|result_dict] eqn:Hl.
    { destruct e; injection H as <-; injection Hb as <-; discriminate Hd. }
    destruct result_dict as [| | | | | |reply];
      try (injection H as <-; injection Hb as <-; discriminate Hd).
    cbn [ReservationResponse_unpack] in H.
    destruct (ReservationResponse_init reply) as [e|m] eqn:Hi.
    { destruct e; injection H as <-; injection Hb as <-; discriminate Hd. }
    unfold model_dump_json in H.
    destruct (serializable m);
      [|injection H as <-; injection Hb as <-; discriminate Hd].
    injection H as <-. injection Hb as <-. cbn in Hd. injection Hd as Hm1.
    split; [reflexivity|].
    apply init_fields in Hi. destruct Hi as [Hi _].
    unfold required, validate_bool in Hi.
    destruct (dict_get "is_reservation" reply) as [v|] eqn:Hv; [|discriminate].
    destruct (lax_bool v) as [b|] eqn:Hlb; [|discriminate].
    injection Hi as ->.
    exists text, reply, v.
    split; [|now rewrite Hlb, Hm1].
    exists t, s, response, choice, rest. cbv zeta.
    split; [exact Hc|]. split; [exact Hf|]. split; [exact Ht|].
    split; [exact Hq|]. split; [exact Ha|]. split; [exact Hcr|].
    split; [exact Hch | exact Hm].
  - apply He in H.
    destruct H as [<- | [<- | [<- | [<- | []]]]];
      injection Hb as <-; discriminate Hd.
Qed.

Lemma no_reservation_without_model_witness :
  exists text reply v,
    model_replies
      (mock_world test_environ valid_reservation_text
                  [(valid_reservation_text, PyDict valid_reservation)])
      rally_request (Some text)
    /\ json_loads
         (mock_world test_environ valid_reservation_text
                     [(valid_reservation_text, PyDict valid_reservation)])
         text
       = inr (PyDict reply)
    /\ dict_get "is_reservation" reply = Some v
    /\ lax_bool v = Some true.
Proof.
  apply (proj2 (no_reservation_without_model
                  (mock_world test_environ valid_reservation_text
                              [(valid_reservation_text, PyDict valid_reservation)])
                  rally_request
                  {| body := PyDict (valid_reservation ++ [("error", PyNone)]);
                     status_code := 200;
                     mimetype := "application/json" |}
                  (valid_reservation ++ [("error", PyNone)])%list
                  eq_refl eq_refl eq_refl)).
Defined.

(** ** The message sent to the model *)

Lemma str_append_assoc (a b c : string) : (a ++ b) ++ c = a ++ (b ++ c).
Proof.
  induction a as [|x a IH]; simpl; [reflexivity | now rewrite IH].
Qed.

Lemma request_fields_unique (req : HttpRequest) (t s t' s' : value) :
  request_fields req t s -> request_fields req t' s' -> t = t' /\ s = s'.
Proof.
  intros (d & Hj & Ht & Hs) (d' & Hj' & Ht' & Hs').
  rewrite Hj in Hj'. injection Hj' as <-.
  rewrite Ht in Ht'. rewrite Hs in Hs'.
  injection Ht' as <-. injection Hs' as <-. now split.
Qed.

(** X16. When a completion is requested for a request whose [email_text]
    and [email_subject] are strings, the user message sent to the model
    contains both of them verbatim. *)
Theorem user_message_quotes_email (w : World) (req : HttpRequest)
  (email_text email_subject : string) (cfg : ClientConfig)
  (request : ChatRequest) :
  request_fields req (PyStr email_text) (PyStr email_subject) ->
  In (Create cfg request) (snd (parse_email w req)) ->
  exists text,
    messages request
    = [ {| role := "system"; content := SYSTEM_PROMPT |};
        {| role := "user"; content := text |} ]
    /\ substring_of email_text text
    /\ substring_of email_subject text.
Proof.
  intros Hf H.
  destruct (parse_email_cases w req) as [(t & s & Hr) | [Hnil _]];
    [|rewrite Hnil in H; now elim H].
  rewrite (parse_email_reaches w req t s Hr) in H.
  destruct Hr as (_ & Hf' & _).
  destruct (request_fields_unique req _ _ _ _ Hf Hf') as [<- <-].
  destruct (call_openai_calls w (environ_get w "AZURE_OPENAI_ENDPOINT")
              (environ_get w "AZURE_OPENAI_API_KEY") (deployment_name w)
              (PyStr email_text) (PyStr email_subject))
    as [Hc | Hc]; rewrite Hc in H.
  - destruct H as [H | []]. discriminate H.
  - destruct H as [H | [H | []]]; [discriminate H|].
    injection H as <- <-.
    eexists. split; [reflexivity|].
    unfold user_message, fmt. split.
    + exists ("Parse this reservation email:" ++ nl ++ nl
              ++ "Subject: " ++ email_subject ++ nl ++ nl ++ "Body:" ++ nl),
        (nl ++ nl ++ "Extract the reservation details and respond with JSON.").
      now repeat rewrite str_append_assoc.
    + exists ("Parse this reservation email:" ++ nl ++ nl ++ "Subject: "),
        (nl ++ nl ++ "Body:" ++ nl ++ email_text ++ nl ++ nl
         ++ "Extract the reservation details and respond with JSON.").
      now repeat rewrite str_append_assoc.
Qed.

(** The check that closes the test [test_simple_reservation_fixture]. *)
Lemma user_message_quotes_email_witness :
  exists text,
    messages
      (chat_request (mock_world test_environ "not valid json" []) "gpt-4o-mini"
         (PyStr "Reservation for John Smith on Dec 23")
         (PyStr "Rally Club Reservation"))
    = [ {| role := "system"; content := SYSTEM_PROMPT |};
        {| role := "user"; content := text |} ]
    /\ substring_of "Reservation for John Smith on Dec 23" text
    /\ substring_of "Rally Club Reservation" text.
Proof.
  apply (user_message_quotes_email
           (mock_world test_environ "not valid json" []) rally_request
           "Reservation for John Smith on Dec 23" "Rally Club Reservation"
           (client_config (Some "https://test.openai.azure.com")
                          (Some "test-key"))).
  - eexists. split; [reflexivity | split; reflexivity].
  - right; left; reflexivity.
Defined.

(** ** The two handlers together *)

(** X17. The two handlers agree on what "configured" means: [health]
    reports [openai_configured] false exactly when [parse_email] answers
    every request with the 500 "Azure OpenAI not configured". *)
Theorem health_agrees_with_config_check (w : World)
  (health_req req : HttpRequest) :
  health w health_req
  = Return {| body := PyDict [ ("status", PyStr "ok");
                               ("openai_configured", PyBool false) ];
              status_code := 200;
              mimetype := "application/json" |}
  <-> parse_email w req
      = (Return {| body := PyDict [("error", PyStr "Azure OpenAI not configured")];
                   status_code := 500;
                   mimetype := "application/json" |},
         []).
Proof.
  unfold health, parse_email.
  destruct (configured (environ_get w "AZURE_OPENAI_ENDPOINT"));
    [|split; reflexivity].
  destruct (configured (environ_get w "AZURE_OPENAI_API_KEY"));
    [|split; reflexivity].
  cbn [negb orb]. split; [discriminate|].
  destruct (get_json req) as [msg|req_body]; [discriminate|].
  destruct (py_get req_body "email_text" (PyStr "")) as [e|email_text];
    [discriminate|].
  destruct (py_get req_body "email_subject" (PyStr "")) as [e|email_subject];
    [discriminate|].
  destruct (negb (truthy email_text)); [discriminate|].
  destruct (quick_check email_text email_subject) as [e|[|]];
    try discriminate.
  intros H.
  destruct (call_openai_trace w (environ_get w "AZURE_OPENAI_ENDPOINT")
              (environ_get w "AZURE_OPENAI_API_KEY") (deployment_name w)
              email_text email_subject) as [rest Ht].
  rewrite H in Ht. discriminate Ht.
Qed.

(** ** More on the quick check *)

Lemma existsb_eq_str (needle : string) (items : list value) :
  existsb (eq_str needle) items = true <-> In (PyStr needle) items.
Proof.
  rewrite existsb_exists. split.
  - intros (x & Hx & He). destruct x; try discriminate He.
    cbn in He. apply String.eqb_eq in He. now subst.
  - intros H. exists (PyStr needle). split; [exact H|].
    cbn. apply String.eqb_refl.
Qed.

(** X18. The quick check never holds back a body that mentions the marker:
    when [email_text] is a string that contains "Rally Club", the subject is
    not looked at, so the handler builds the client and returns a response
    whatever [email_subject] holds, be it a number or [null]. *)
Theorem marker_in_body_skips_subject (w : World) (req : HttpRequest)
  (email_text : string) (email_subject : value) :
  config_present w ->
  request_fields req (PyStr email_text) email_subject ->
  substring_of "Rally Club" email_text ->
  exists response rest,
    parse_email w req = (Return response, NewClient (env_config w) :: rest).
Proof.
  intros Hc Hf Hm. apply str_contains_iff in Hm. fold MARKER in Hm.
  assert (Hr : reaches_model w req (PyStr email_text) email_subject).
  { split; [exact Hc|]. split; [exact Hf|]. split.
    - apply truthy_str. intros ->. discriminate Hm.
    - unfold quick_check, py_in. now rewrite Hm. }
  rewrite (parse_email_reaches w req _ _ Hr).
  destruct (call_openai_returns w (environ_get w "AZURE_OPENAI_ENDPOINT")
              (environ_get w "AZURE_OPENAI_API_KEY") (deployment_name w)
              (PyStr email_text) email_subject) as [response H1].
  destruct (call_openai_trace w (environ_get w "AZURE_OPENAI_ENDPOINT")
              (environ_get w "AZURE_OPENAI_API_KEY") (deployment_name w)
              (PyStr email_text) email_subject) as [rest H2].
  exists response, rest.
  destruct (call_openai w _ _ _ _ _) as [o tr].
  cbn [fst snd] in H1, H2. now subst.
Qed.

Lemma marker_in_body_skips_subject_witness :
  exists response rest,
    parse_email (mock_world test_environ "not valid json" [])
      (MockHttpRequest
         (Some (PyDict [ ("email_text", PyStr "Rally Club: court booked");
                         ("email_subject", PyInt 5) ])))
    = (Return response,
       NewClient (env_config (mock_world test_environ "not valid json" []))
       :: rest).
Proof.
  apply (marker_in_body_skips_subject
           (mock_world test_environ "not valid json" [])
           (MockHttpRequest
              (Some (PyDict [ ("email_text", PyStr "Rally Club: court booked");
                              ("email_subject", PyInt 5) ])))
           "Rally Club: court booked" (PyInt 5)).
  - split; reflexivity.
  - eexists. split; [reflexivity | split; reflexivity].
  - now exists "", ": court booked".
Defined.

(** X19. On an [email_text] that is a JSON array the quick check tests
    membership, not substrings: with the configuration present, a non-empty
    array for [email_text] and a string for [email_subject], the model is
    reached exactly when some item of the array is the string "Rally Club"
    itself or the subject contains "Rally Club". *)
Theorem array_email_text_is_matched_by_item (w : World) (req : HttpRequest)
  (items : list value) (email_subject : string) :
  config_present w ->
  request_fields req (PyList items) (PyStr email_subject) ->
  items <> [] ->
  snd (parse_email w req) <> []
  <-> In (PyStr "Rally Club") items
      \/ substring_of "Rally Club" email_subject.
Proof.
  intros Hc Hf Hne.
  rewrite (parse_email_fields w req _ _ Hc Hf).
  assert (Ht : truthy (PyList items) = true)
    by (destruct items; [now elim Hne | reflexivity]).
  rewrite Ht. cbn [negb].
  rewrite <- existsb_eq_str, <- str_contains_iff. fold MARKER.
  unfold quick_check. cbn [py_in].
  destruct (existsb (eq_str MARKER) items).
  - split; [now left|]. intros _.
    destruct (call_openai_trace w (environ_get w "AZURE_OPENAI_ENDPOINT")
                (environ_get w "AZURE_OPENAI_API_KEY") (deployment_name w)
                (PyList items) (PyStr email_subject)) as [rest ->].
    discriminate.
  - destruct (str_contains MARKER email_subject); cbn [negb].
    + split; [now right|]. intros _.
      destruct (call_openai_trace w (environ_get w "AZURE_OPENAI_ENDPOINT")
                  (environ_get w "AZURE_OPENAI_API_KEY") (deployment_name w)
                  (PyList items) (PyStr email_subject)) as [rest ->].
      discriminate.
    + split; [intros H; now elim H | intros [H | H]; discriminate H].
Qed.

(** An array whose only item contains the marker without being it: the
    model is not reached. *)
Lemma array_email_text_is_matched_by_item_witness :
  ~ In (PyStr "Rally Club") [PyStr "Rally Club Reservation"]
  /\ snd (parse_email (mock_world test_environ "" [])
            (MockHttpRequest
               (Some (PyDict [ ("email_text",
                                PyList [PyStr "Rally Club Reservation"]) ]))))
     = [].
Proof.
  assert (Hn : ~ In (PyStr "Rally Club") [PyStr "Rally Club Reservation"])
    by (intros [H | []]; discriminate H).
  split; [exact Hn|].
  destruct (snd (parse_email (mock_world test_environ "" [])
                   (MockHttpRequest
                      (Some (PyDict [ ("email_text",
                                       PyList [PyStr "Rally Club Reservation"]) ])))))
    as [|ev trace] eqn:E; [reflexivity|].
  exfalso.
  assert (Hne : ev :: trace <> []) by discriminate.
  rewrite <- E in Hne.
  apply (proj1 (array_email_text_is_matched_by_item
                  (mock_world test_environ "" [])
                  (MockHttpRequest
                     (Some (PyDict [ ("email_text",
                                      PyList [PyStr "Rally Club Reservation"]) ])))
                  [PyStr "Rally Club Reservation"] ""
                  (conj eq_refl eq_refl)
                  (ex_intro _ _ (conj eq_refl (conj eq_refl eq_refl)))
                  ltac:(discriminate))) in Hne.
  destruct Hne as [H | H]; [now apply Hn|].
  apply str_contains_iff in H. discriminate H.
Defined.

(** ** The lax conversion to [bool], against the table of truth values *)

Lemma in_all_ascii (c : ascii) : In c all_ascii.
Proof.
  unfold all_ascii. rewrite <- (ascii_nat_embedding c).
  apply in_map, in_seq. pose proof (nat_ascii_bounded c). lia.
Qed.

Lemma lower_ok_all :
  forallb (fun c => forallb (lower_ok c) all_ascii) all_ascii = true.
Proof.
  vm_compute. reflexivity.
Qed.

Lemma ascii_lower_iff (c d : ascii) :
  ascii_lower d = d ->
  ascii_lower c = d <-> c = d \/ c = ascii_upper d.
Proof.
  intros Hd.
  assert (H : lower_ok c d = true).
  { pose proof lower_ok_all as Hall.
    rewrite forallb_forall in Hall. specialize (Hall c (in_all_ascii c)).
    rewrite forallb_forall in Hall. exact (Hall d (in_all_ascii d)). }
  unfold lower_ok in H.
  apply Ascii.eqb_eq in Hd. rewrite Hd in H. cbn [negb orb] in H.
  apply Bool.eqb_prop in H.
  rewrite <- Ascii.eqb_eq, H, orb_true_iff, !Ascii.eqb_eq. reflexivity.
Qed.

Lemma str_lower_iff (word s : string) :
  lower_stable word = true ->
  str_lower s = word <-> In s (case_variants word).
Proof.
  revert s; induction word as [|d word IH]; intros s Hw.
  - destruct s; cbn; split; try discriminate; auto.
    + intros [H | []]. discriminate H.
  - cbn [lower_stable] in Hw. apply andb_true_iff in Hw.
    destruct Hw as [Hd Hw]. apply Ascii.eqb_eq in Hd.
    cbn [case_variants]. rewrite in_flat_map.
    destruct s as [|c s]; cbn [str_lower].
    + split; [discriminate|].
      intros (v & _ & [H | [H | []]]); discriminate H.
    + split.
      * intros H. injection H as Hc Hs.
        exists s. split; [now apply IH|].
        apply (ascii_lower_iff c d Hd) in Hc.
        destruct Hc as [-> | ->]; [now left | right; now left].
      * intros (v & Hv & [H | [H | []]]); injection H as <- <-;
          (f_equal; [apply (ascii_lower_iff _ d Hd); auto | now apply IH]).
Qed.

Lemma str_in_lower_iff (words : list string) (s : string) :
  forallb lower_stable words = true ->
  str_in (str_lower s) words = true <-> In s (flat_map case_variants words).
Proof.
  intros Hw. unfold str_in.
  rewrite existsb_exists, in_flat_map. rewrite forallb_forall in Hw.
  split; intros (word & Hin & H); exists word; (split; [exact Hin|]).
  - apply String.eqb_eq in H. now apply str_lower_iff; [apply Hw|].
  - apply String.eqb_eq. now apply str_lower_iff; [apply Hw|].
Qed.

Lemma str_as_bool_false (s : string) :
  str_as_bool s = Some false <-> In s (truth_words false).
Proof.
  unfold str_as_bool, truth_words. cbn [In].
  rewrite <- (str_in_lower_iff ["f"; "n"; "no"; "off"; "false"] s eq_refl).
  destruct (String.eqb s "0") eqn:E0; cbn [orb].
  - apply String.eqb_eq in E0. split; [now left | reflexivity].
  - apply String.eqb_neq in E0.
    destruct (str_in (str_lower s) ["f"; "n"; "no"; "off"; "false"]).
    + split; [now right | reflexivity].
    + split.
      * destruct (_ || _); discriminate.
      * intros [H | H]; [now elim E0 | discriminate H].
Qed.

Lemma str_as_bool_true (s : string) :
  str_as_bool s = Some true <-> In s (truth_words true).
Proof.
  unfold truth_words. cbn [In].
  rewrite <- (str_in_lower_iff ["t"; "y"; "on"; "yes"; "true"] s eq_refl).
  split.
  - unfold str_as_bool.
    destruct (_ || _); [discriminate|].
    destruct (String.eqb s "1") eqn:E1; cbn [orb].
    + apply String.eqb_eq in E1. now left.
    + destruct (str_in (str_lower s) ["t"; "y"; "on"; "yes"; "true"]);
        [now right | discriminate].
  - intros [<- | H]; [reflexivity|].
    unfold str_as_bool. rewrite H, orb_true_r.
    assert (Hf : String.eqb s "0"
                 || str_in (str_lower s) ["f"; "n"; "no"; "off"; "false"]
                 = false).
    { unfold str_in in H. cbn [existsb] in H.
      repeat rewrite orb_true_iff in H. repeat rewrite String.eqb_eq in H.
      destruct (String.eqb s "0") eqn:E0.
      - apply String.eqb_eq in E0. subst s. cbn in H.
        destruct H as [H | [H | [H | [H | [H | H]]]]]; discriminate H.
      - destruct H as [H | [H | [H | [H | [H | H]]]]];
          try (rewrite H; reflexivity); discriminate H. }
    now rewrite Hf.
Qed.

Lemma float_one_iff (m : positive) (e : Z) :
  float_is_one (S754_finite false m e) = true
  <-> Z.pos m * 2 ^ Z.max e 0 = 2 ^ Z.max (- e) 0.
Proof.
  unfold float_is_one. destruct (0 <=? e) eqn:E.
  - apply Z.leb_le in E.
    rewrite Z.eqb_eq, (Z.max_l e 0), (Z.max_r (- e) 0) by lia. reflexivity.
  - apply Z.leb_gt in E.
    rewrite Z.eqb_eq, (Z.max_r e 0), (Z.max_l (- e) 0) by lia.
    rewrite Z.pow_0_r, Z.mul_1_r. reflexivity.
Qed.

(** The conversion accepts exactly the values that spell a truth value, and
    gives the value they spell. *)
Lemma lax_bool_spells (v : value) (b : bool) :
  lax_bool v = Some b <-> spells v b.
Proof.
  split.
  - destruct v as [|c|n|f|s|items|entries]; cbn [lax_bool]; try discriminate.
    + intros H. injection H as <-. constructor.
    + unfold int_as_bool.
      destruct (n =? 0) eqn:E0;
        [apply Z.eqb_eq in E0; subst; intros H; injection H as <-; constructor|].
      destruct (n =? 1) eqn:E1; [|discriminate].
      apply Z.eqb_eq in E1; subst. intros H; injection H as <-. constructor.
    + destruct f as [sign| | |sign m e]; unfold float_as_bool;
        try discriminate.
      * intros H; injection H as <-. constructor.
      * destruct sign; [discriminate|].
        destruct (float_is_one (S754_finite false m e)) eqn:E; [|discriminate].
        intros H; injection H as <-. constructor. now apply float_one_iff.
    + destruct b; intros H; constructor;
        [now apply str_as_bool_true | now apply str_as_bool_false].
  - intros H. destruct H as [c|s c Hs| | |sign|m e Hm]; cbn [lax_bool];
      try reflexivity.
    + destruct c; [now apply str_as_bool_true | now apply str_as_bool_false].
    + apply float_one_iff in Hm. unfold float_as_bool. now rewrite Hm.
Qed.

Lemma init_builds (entries : dict) (v : value) (b : bool) :
  dict_get "is_reservation" entries = Some v ->
  lax_bool v = Some b ->
  (forall name, In name str_fields -> str_field_ok name entries) ->
  players_ok entries ->
  exists r, ReservationResponse_init entries = inr r /\ is_reservation r = b.
Proof.
  intros Hv Hb Hs Hp.
  assert (F1 : required "is_reservation" validate_bool entries = inr b)
    by (unfold required, validate_bool; now rewrite Hv, Hb).
  destruct (init_accepts entries) as [r Hr].
  - unfold all_errors.
    destruct (proj1 (optional_str_ok "date" entries)) as [o2 F2];
      [apply Hs; cbn; tauto|].
    destruct (proj1 (optional_str_ok "start_time" entries)) as [o3 F3];
      [apply Hs; cbn; tauto|].
    destruct (proj1 (optional_str_ok "end_time" entries)) as [o4 F4];
      [apply Hs; cbn; tauto|].
    destruct (proj1 (optional_str_ok "court" entries)) as [o5 F5];
      [apply Hs; cbn; tauto|].
    destruct (proj1 (optional_str_ok "organizer" entries)) as [o6 F6];
      [apply Hs; cbn; tauto|].
    destruct (proj1 (optional_str_ok "error" entries)) as [o8 F8];
      [apply Hs; cbn; tauto|].
    destruct (proj1 (optional_players_ok entries) Hp) as [o7 F7].
    now rewrite F1, F2, F3, F4, F5, F6, F7, F8.
  - exists r. split; [exact Hr|].
    apply init_fields in Hr. destruct Hr as [Hr _].
    rewrite F1 in Hr. now injection Hr.
Qed.

(** C3, as the code has it. For every decoded JSON object: validation fails
    when [is_reservation] is missing, and when its value does not spell a
    truth value; the error names the field. The values that spell a truth
    value are a boolean, the strings "1", "t", "y", "on", "yes", "true"
    (true) and "0", "f", "n", "no", "off", "false" (false) with the words in
    any letter case, the integers 1 and 0, and a float equal to one or to
    zero. Such a value is not rejected: when the other fields are acceptable
    the model is built and holds the truth value that is spelled, so that
    the string "true" and the number 1 become true. Every other value
    ([null], an array, an object, any other string or number) is
    rejected. *)
Theorem is_reservation_is_validated_laxly (entries : dict) :
  (dict_get "is_reservation" entries = None ->
   exists errors,
     ReservationResponse_init entries = inl (ValidationError errors)
     /\ In (LineError [LocField "is_reservation"] missing) errors)
  /\ (forall v,
        dict_get "is_reservation" entries = Some v ->
        (forall b, ~ spells v b) ->
        exists errors,
          ReservationResponse_init entries = inl (ValidationError errors)
          /\ In (LineError [LocField "is_reservation"] invalid) errors)
  /\ (forall v r,
        dict_get "is_reservation" entries = Some v ->
        ReservationResponse_init entries = inr r ->
        spells v (is_reservation r))
  /\ (forall v b,
        dict_get "is_reservation" entries = Some v ->
        spells v b ->
        (forall name, In name str_fields -> str_field_ok name entries) ->
        players_ok entries ->
        exists r,
          ReservationResponse_init entries = inr r /\ is_reservation r = b)
  /\ (forall c b, spells (PyBool c) b -> b = c)
  /\ spells (PyStr "true") true
  /\ spells (PyStr "False") false
  /\ spells (PyStr "YES") true
  /\ spells (PyInt 1) true
  /\ spells (PyInt 0) false
  /\ (forall b, ~ spells (PyStr "maybe") b)
  /\ (forall b, ~ spells (PyStr "") b)
  /\ (forall b, ~ spells (PyInt 2) b)
  /\ (forall b, ~ spells PyNone b)
  /\ (forall items b, ~ spells (PyList items) b)
  /\ (forall d b, ~ spells (PyDict d) b).
Proof.
  split; [|split; [|split; [|split]]].
  - intros H.
    destruct (init_is_reservation_rejected entries
                [LineError [LocField "is_reservation"] missing])
      as [rest ->].
    + unfold required. now rewrite H.
    + eexists. split; [reflexivity | now left].
  - intros v H Hv.
    assert (Hl : lax_bool v = None).
    { destruct (lax_bool v) as [b|] eqn:E; [|reflexivity].
      apply lax_bool_spells in E. now elim (Hv b). }
    destruct (init_is_reservation_rejected entries
                [LineError [LocField "is_reservation"] invalid])
      as [rest ->].
    + unfold required, validate_bool. now rewrite H, Hl.
    + eexists. split; [reflexivity | now left].
  - intros v r H Hr.
    apply init_fields in Hr. destruct Hr as [Hr _].
    unfold required, validate_bool in Hr. rewrite H in Hr.
    destruct (lax_bool v) as [b|] eqn:E; [|discriminate].
    injection Hr as <-. now apply lax_bool_spells.
  - intros v b H Hs Hf Hp.
    apply lax_bool_spells in Hs. now apply (init_builds entries v b).
  - split.
    { intros c b H. apply lax_bool_spells in H. now injection H. }
    repeat (split; [now apply lax_bool_spells|]).
    repeat (split; [intros b H; apply lax_bool_spells in H; discriminate H|]).
    split; intros x b H; apply lax_bool_spells in H; discriminate H.
Qed.

(** An object without the key, and the string "true" with nothing else. *)
Lemma is_reservation_is_validated_laxly_witness :
  (exists errors,
     ReservationResponse_init [("date", PyStr "2024-12-23")]
     = inl (ValidationError errors)
     /\ In (LineError [LocField "is_reservation"] missing) errors)
  /\ (exists r,
        ReservationResponse_init [("is_reservation", PyStr "true")] = inr r
        /\ is_reservation r = true).
Proof.
  split.
  - apply (proj1 (is_reservation_is_validated_laxly
                    [("date", PyStr "2024-12-23")])).
    reflexivity.
  - destruct (is_reservation_is_validated_laxly
                [("is_reservation", PyStr "true")])
      as (_ & _ & _ & H & _ & Ht & _).
    apply (H (PyStr "true") true); [reflexivity | exact Ht | | exact I].
    intros name Hn. cbn in Hn.
    repeat (destruct Hn as [<- | Hn]; [exact I|]). now elim Hn.
Defined.
